(** * Lifecycle hook adapters of the furnace Go SDK (package [sdk], sdk.go)

    The package declares four hook interfaces ([PreCreate], [PostCreate],
    [PreDelete], [PostDelete]) and, for each, a client adapter that turns a
    local call into a remote call, a server adapter that turns a remote call
    into a call of the local implementation, and the plugin struct binding
    both to the transport.

    Go code is embedded shallowly.  A function with effects is a function
    from the state it runs in to an [outcome]: it returns a value, or it
    panics.  A pointer ([*T]) and an interface value are [option]s, [None]
    being Go's [nil]; dereferencing [nil] and calling a method of a [nil]
    interface panic.  A method with a pointer receiver runs in a state made
    of the receiver's struct and of the rest of the program.

    sdk.go also carries an earlier copy of the PreCreate and PostCreate
    parts (package [gosdk]); its functions have the same bodies as the ones
    of package [sdk] embedded here. *)

From Stdlib Require Import String Ascii List.
From ExtLib Require Import Structures.Monad.
Import ListNotations.
Import MonadNotation.
Local Open Scope monad_scope.
Local Open Scope string_scope.

Set Implicit Arguments.

(** ** Effects: state and panics *)

Inductive outcome (St A : Type) : Type :=
| Returned (a : A) (s : St)
| Panicked (s : St).

Arguments Returned {St A} a s.
Arguments Panicked {St A} s.

Definition M (St A : Type) : Type := St -> outcome St A.

#[global] Instance Monad_M (St : Type) : Monad (M St) :=
  {| ret := fun A (a : A) (s : St) => Returned a s;
     bind := fun A B (c : M St A) (k : A -> M St B) (s : St) =>
               match c s with
               | Returned a s' => k a s'
               | Panicked s' => Panicked s'
               end |}.

Definition panic {St A : Type} : M St A := fun s => Panicked s.

(** [*T]: [None] is the nil pointer. *)
Definition ptr (T : Type) : Type := option T.

(** A value of interface type [I]: [None] is the nil interface. *)
Definition iface (I : Type) : Type := option I.

(** Go's [error]: [None] is [nil], [Some msg] an error with its message. *)
Definition error : Type := option string.

(** [p.Field] on a pointer: a nil pointer panics. *)
Definition deref {St T : Type} (p : ptr T) : M St T :=
  match p with
  | Some v => ret v
  | None => panic
  end.

(** [i.Method(...)] on an interface value: a nil interface panics. *)
Definition invoke {St I A : Type} (i : iface I) (method : I -> M St A) : M St A :=
  match i with
  | Some x => method x
  | None => panic
  end.

(** ** Messages of package [proto] *)

Record Stack : Type := { Name : string }.
Record Proceed : Type := { Failed : bool }.
Record Empty : Type := { }.

Section Sdk.

(** The state of everything outside this package: the plugin
    implementations, the transport, the remote peer. *)
Variable W : Type.

(** [context.Context] and [context.Background()]. *)
Variable context : Type.
Variable Background : context.

(** A method with a pointer receiver of struct type [R].  The receiver's
    struct is part of the state, so that a method may assign its fields. *)
Definition Method (R A : Type) : Type := M (R * W) A.

(** Read the receiver. *)
Definition self {R : Type} : Method R R :=
  fun s => Returned (fst s) s.

(** Assign the receiver's fields. *)
Definition assign {R : Type} (r : R) : Method R unit :=
  fun s => Returned tt (r, snd s).

(** Run code of another package (a stub, an implementation, the generated
    registration functions).  It acts on the state outside the receiver:
    the adapters are reached by their methods only, and the client
    adapters' one field, [client], is unexported. *)
Definition extern {R A : Type} (c : M W A) : Method R A :=
  fun s => match c (snd s) with
           | Returned a w' => Returned a (fst s, w')
           | Panicked w' => Panicked (fst s, w')
           end.

(** Call a method on the object [obj] from outside. *)
Definition call {R A : Type} (obj : R) (f : Method R A) : M W A :=
  fun w => match f (obj, w) with
           | Returned a s' => Returned a (snd s')
           | Panicked s' => Panicked (snd s')
           end.

(** *** Plugin interface declarations *)

Record PreCreate : Type :=
  { PreCreate_Execute : string -> M W bool }.

Record PostCreate : Type :=
  { PostCreate_Execute : string -> M W unit }.

Record PreDelete : Type :=
  { PreDelete_Execute : string -> M W bool }.

Record PostDelete : Type :=
  { PostDelete_Execute : string -> M W unit }.

(** *** Interfaces and functions of the generated package [proto]

    The client stubs take call options after the request; the adapters
    pass none. *)

Record PreCreateClient : Type :=
  { PreCreateClient_Execute : context -> ptr Stack -> M W (ptr Proceed * error) }.

Record PreCreateServer : Type :=
  { PreCreateServer_Execute : context -> ptr Stack -> M W (ptr Proceed * error) }.

Record PostCreateClient : Type :=
  { PostCreateClient_Execute : context -> ptr Stack -> M W (ptr Empty * error) }.

Record PostCreateServer : Type :=
  { PostCreateServer_Execute : context -> ptr Stack -> M W (ptr Empty * error) }.

Record PreDeleteClient : Type :=
  { PreDeleteClient_Execute : context -> ptr Stack -> M W (ptr Proceed * error) }.

Record PreDeleteServer : Type :=
  { PreDeleteServer_Execute : context -> ptr Stack -> M W (ptr Proceed * error) }.

Record PostDeleteClient : Type :=
  { PostDeleteClient_Execute : context -> ptr Stack -> M W (ptr Empty * error) }.

Record PostDeleteServer : Type :=
  { PostDeleteServer_Execute : context -> ptr Stack -> M W (ptr Empty * error) }.

(** [plugin.Plugin], [*plugin.GRPCBroker], [*grpc.Server] and
    [*grpc.ClientConn]: handles of the transport, never inspected here. *)
Variable Plugin : Type.
Variable GRPCBroker : Type.
Variable Server : Type.
Variable ClientConn : Type.

(** [proto.RegisterXServer(s, srv)] and [proto.NewXClient(cc)]. *)
Variable RegisterPreCreateServer : Server -> iface PreCreateServer -> M W unit.
Variable RegisterPostCreateServer : Server -> iface PostCreateServer -> M W unit.
Variable RegisterPreDeleteServer : Server -> iface PreDeleteServer -> M W unit.
Variable RegisterPostDeleteServer : Server -> iface PostDeleteServer -> M W unit.
Variable NewPreCreateClient : ClientConn -> M W (iface PreCreateClient).
Variable NewPostCreateClient : ClientConn -> M W (iface PostCreateClient).
Variable NewPreDeleteClient : ClientConn -> M W (iface PreDeleteClient).
Variable NewPostDeleteClient : ClientConn -> M W (iface PostDeleteClient).

(** *** Structs *)

Record PreCreateGRPCPlugin : Type :=
  { PreCreateGRPCPlugin_Plugin : iface Plugin;
    PreCreateGRPCPlugin_Impl : iface PreCreate }.

Record GRPCPreCreateClient : Type :=
  { GRPCPreCreateClient_client : iface PreCreateClient }.

Record GRPCPreCreateServer : Type :=
  { GRPCPreCreateServer_Impl : iface PreCreate }.

Record PostCreateGRPCPlugin : Type :=
  { PostCreateGRPCPlugin_Plugin : iface Plugin;
    PostCreateGRPCPlugin_Impl : iface PostCreate }.

Record GRPCPostCreateClient : Type :=
  { GRPCPostCreateClient_client : iface PostCreateClient }.

Record GRPCPostCreateServer : Type :=
  { GRPCPostCreateServer_Impl : iface PostCreate }.

Record PreDeleteGRPCPlugin : Type :=
  { PreDeleteGRPCPlugin_Plugin : iface Plugin;
    PreDeleteGRPCPlugin_Impl : iface PreDelete }.

Record GRPCPreDeleteClient : Type :=
  { GRPCPreDeleteClient_client : iface PreDeleteClient }.

Record GRPCPreDeleteServer : Type :=
  { GRPCPreDeleteServer_Impl : iface PreDelete }.

Record PostDeleteGRPCPlugin : Type :=
  { PostDeleteGRPCPlugin_Plugin : iface Plugin;
    PostDeleteGRPCPlugin_Impl : iface PostDelete }.

Record GRPCPostDeleteClient : Type :=
  { GRPCPostDeleteClient_client : iface PostDeleteClient }.

Record GRPCPostDeleteServer : Type :=
  { GRPCPostDeleteServer_Impl : iface PostDelete }.

(** The dynamic types of the values the [GRPCClient] methods return as
    [interface{}]: pointers to the four client adapters. *)
Inductive dynamic : Type :=
| Dyn_GRPCPreCreateClient (m : GRPCPreCreateClient)
| Dyn_GRPCPostCreateClient (m : GRPCPostCreateClient)
| Dyn_GRPCPreDeleteClient (m : GRPCPreDeleteClient)
| Dyn_GRPCPostDeleteClient (m : GRPCPostDeleteClient).

(** *** PRECREATE plugin functions *)

Definition GRPCPreCreateClient_Execute (key : string)
  : Method GRPCPreCreateClient bool :=
  m <- self ;;
  '(p, err) <- extern (invoke (GRPCPreCreateClient_client m) (fun c =>
                 PreCreateClient_Execute c Background (Some {| Name := key |}))) ;;
  match err with
  | Some _ => ret false
  | None => r <- deref p ;; ret (Failed r)
  end.

Definition GRPCPreCreateServer_Execute (ctx : context) (req : ptr Stack)
  : Method GRPCPreCreateServer (ptr Proceed * error) :=
  m <- self ;;
  rq <- deref req ;;
  res <- extern (invoke (GRPCPreCreateServer_Impl m) (fun i =>
           PreCreate_Execute i (Name rq))) ;;
  ret (Some {| Failed := res |}, None).

(** [*GRPCPreCreateServer] as a value of interface [proto.PreCreateServer]. *)
Definition GRPCPreCreateServer_as_PreCreateServer (m : GRPCPreCreateServer)
  : PreCreateServer :=
  {| PreCreateServer_Execute := fun ctx req =>
       call m (GRPCPreCreateServer_Execute ctx req) |}.

(** [*GRPCPreCreateClient] as a value of interface [PreCreate]. *)
Definition GRPCPreCreateClient_as_PreCreate (m : GRPCPreCreateClient)
  : PreCreate :=
  {| PreCreate_Execute := fun key => call m (GRPCPreCreateClient_Execute key) |}.

Definition PreCreateGRPCPlugin_GRPCServer (broker : GRPCBroker) (s : Server)
  : Method PreCreateGRPCPlugin error :=
  p <- self ;;
  extern (RegisterPreCreateServer s
            (Some (GRPCPreCreateServer_as_PreCreateServer
                     {| GRPCPreCreateServer_Impl := PreCreateGRPCPlugin_Impl p |}))) ;;
  ret None.

Definition PreCreateGRPCPlugin_GRPCClient
    (ctx : context) (broker : GRPCBroker) (c : ClientConn)
  : Method PreCreateGRPCPlugin (iface dynamic * error) :=
  stub <- extern (NewPreCreateClient c) ;;
  ret (Some (Dyn_GRPCPreCreateClient {| GRPCPreCreateClient_client := stub |}),
       None).

(** *** POSTCREATE plugin functions *)

Definition GRPCPostCreateClient_Execute (stackname : string)
  : Method GRPCPostCreateClient unit :=
  m <- self ;;
  extern (invoke (GRPCPostCreateClient_client m) (fun c =>
    PostCreateClient_Execute c Background (Some {| Name := stackname |}))) ;;
  ret tt.

Definition GRPCPostCreateServer_Execute (ctx : context) (req : ptr Stack)
  : Method GRPCPostCreateServer (ptr Empty * error) :=
  m <- self ;;
  rq <- deref req ;;
  extern (invoke (GRPCPostCreateServer_Impl m) (fun i =>
    PostCreate_Execute i (Name rq))) ;;
  ret (Some Build_Empty, None).

Definition GRPCPostCreateServer_as_PostCreateServer (m : GRPCPostCreateServer)
  : PostCreateServer :=
  {| PostCreateServer_Execute := fun ctx req =>
       call m (GRPCPostCreateServer_Execute ctx req) |}.

Definition GRPCPostCreateClient_as_PostCreate (m : GRPCPostCreateClient)
  : PostCreate :=
  {| PostCreate_Execute := fun stackname =>
       call m (GRPCPostCreateClient_Execute stackname) |}.

Definition PostCreateGRPCPlugin_GRPCServer (broker : GRPCBroker) (s : Server)
  : Method PostCreateGRPCPlugin error :=
  p <- self ;;
  extern (RegisterPostCreateServer s
            (Some (GRPCPostCreateServer_as_PostCreateServer
                     {| GRPCPostCreateServer_Impl := PostCreateGRPCPlugin_Impl p |}))) ;;
  ret None.

Definition PostCreateGRPCPlugin_GRPCClient
    (ctx : context) (broker : GRPCBroker) (c : ClientConn)
  : Method PostCreateGRPCPlugin (iface dynamic * error) :=
  stub <- extern (NewPostCreateClient c) ;;
  ret (Some (Dyn_GRPCPostCreateClient {| GRPCPostCreateClient_client := stub |}),
       None).

(** *** PREDELETE plugin functions *)

Definition GRPCPreDeleteClient_Execute (key : string)
  : Method GRPCPreDeleteClient bool :=
  m <- self ;;
  '(p, err) <- extern (invoke (GRPCPreDeleteClient_client m) (fun c =>
                 PreDeleteClient_Execute c Background (Some {| Name := key |}))) ;;
  match err with
  | Some _ => ret false
  | None => r <- deref p ;; ret (Failed r)
  end.

Definition GRPCPreDeleteServer_Execute (ctx : context) (req : ptr Stack)
  : Method GRPCPreDeleteServer (ptr Proceed * error) :=
  m <- self ;;
  rq <- deref req ;;
  res <- extern (invoke (GRPCPreDeleteServer_Impl m) (fun i =>
           PreDelete_Execute i (Name rq))) ;;
  ret (Some {| Failed := res |}, None).

Definition GRPCPreDeleteServer_as_PreDeleteServer (m : GRPCPreDeleteServer)
  : PreDeleteServer :=
  {| PreDeleteServer_Execute := fun ctx req =>
       call m (GRPCPreDeleteServer_Execute ctx req) |}.

Definition GRPCPreDeleteClient_as_PreDelete (m : GRPCPreDeleteClient)
  : PreDelete :=
  {| PreDelete_Execute := fun key => call m (GRPCPreDeleteClient_Execute key) |}.

Definition PreDeleteGRPCPlugin_GRPCServer (broker : GRPCBroker) (s : Server)
  : Method PreDeleteGRPCPlugin error :=
  p <- self ;;
  extern (RegisterPreDeleteServer s
            (Some (GRPCPreDeleteServer_as_PreDeleteServer
                     {| GRPCPreDeleteServer_Impl := PreDeleteGRPCPlugin_Impl p |}))) ;;
  ret None.

Definition PreDeleteGRPCPlugin_GRPCClient
    (ctx : context) (broker : GRPCBroker) (c : ClientConn)
  : Method PreDeleteGRPCPlugin (iface dynamic * error) :=
  stub <- extern (NewPreDeleteClient c) ;;
  ret (Some (Dyn_GRPCPreDeleteClient {| GRPCPreDeleteClient_client := stub |}),
       None).

(** *** POSTDELETE plugin functions *)

Definition GRPCPostDeleteClient_Execute (stackname : string)
  : Method GRPCPostDeleteClient unit :=
  m <- self ;;
  extern (invoke (GRPCPostDeleteClient_client m) (fun c =>
    PostDeleteClient_Execute c Background (Some {| Name := stackname |}))) ;;
  ret tt.

Definition GRPCPostDeleteServer_Execute (ctx : context) (req : ptr Stack)
  : Method GRPCPostDeleteServer (ptr Empty * error) :=
  m <- self ;;
  rq <- deref req ;;
  extern (invoke (GRPCPostDeleteServer_Impl m) (fun i =>
    PostDelete_Execute i (Name rq))) ;;
  ret (Some Build_Empty, None).

Definition GRPCPostDeleteServer_as_PostDeleteServer (m : GRPCPostDeleteServer)
  : PostDeleteServer :=
  {| PostDeleteServer_Execute := fun ctx req =>
       call m (GRPCPostDeleteServer_Execute ctx req) |}.

Definition GRPCPostDeleteClient_as_PostDelete (m : GRPCPostDeleteClient)
  : PostDelete :=
  {| PostDelete_Execute := fun stackname =>
       call m (GRPCPostDeleteClient_Execute stackname) |}.

Definition PostDeleteGRPCPlugin_GRPCServer (broker : GRPCBroker) (s : Server)
  : Method PostDeleteGRPCPlugin error :=
  p <- self ;;
  extern (RegisterPostDeleteServer s
            (Some (GRPCPostDeleteServer_as_PostDeleteServer
                     {| GRPCPostDeleteServer_Impl := PostDeleteGRPCPlugin_Impl p |}))) ;;
  ret None.

Definition PostDeleteGRPCPlugin_GRPCClient
    (ctx : context) (broker : GRPCBroker) (c : ClientConn)
  : Method PostDeleteGRPCPlugin (iface dynamic * error) :=
  stub <- extern (NewPostDeleteClient c) ;;
  ret (Some (Dyn_GRPCPostDeleteClient {| GRPCPostDeleteClient_client := stub |}),
       None).

End Sdk.

(** ** Observing an implementation

    The state an outcome ends in, whether the code returned or panicked. *)
Definition state_of {St A : Type} (o : outcome St A) : St :=
  match o with
  | Returned _ s => s
  | Panicked s => s
  end.

(** [traced f] behaves as the hook body [f] and appends the identifier it was
    called with to a log kept beside the state of [f]: one entry per call. *)
Definition traced {W A : Type} (f : string -> M W A)
  : string -> M (W * list string) A :=
  fun stackname s =>
    match f stackname (fst s) with
    | Returned a w' => Returned a (w', (snd s ++ [stackname])%list)
    | Panicked w' => Panicked (w', (snd s ++ [stackname])%list)
    end.

Definition traced_PreCreate {W : Type} (impl : PreCreate W)
  : PreCreate (W * list string) :=
  {| PreCreate_Execute := traced (PreCreate_Execute impl) |}.

Definition traced_PostCreate {W : Type} (impl : PostCreate W)
  : PostCreate (W * list string) :=
  {| PostCreate_Execute := traced (PostCreate_Execute impl) |}.

Definition traced_PreDelete {W : Type} (impl : PreDelete W)
  : PreDelete (W * list string) :=
  {| PreDelete_Execute := traced (PreDelete_Execute impl) |}.

Definition traced_PostDelete {W : Type} (impl : PostDelete W)
  : PostDelete (W * list string) :=
  {| PostDelete_Execute := traced (PostDelete_Execute impl) |}.

(** [counted f] behaves as the hook body [f] and increments a counter kept
    beside the state of [f], once per call. *)
Definition counted {W A : Type} (f : string -> M W A)
  : string -> M (W * nat) A :=
  fun stackname s =>
    match f stackname (fst s) with
    | Returned a w' => Returned a (w', S (snd s))
    | Panicked w' => Panicked (w', S (snd s))
    end.

Definition counted_PostDelete {W : Type} (impl : PostDelete W)
  : PostDelete (W * nat) :=
  {| PostDelete_Execute := counted (PostDelete_Execute impl) |}.

(** ** Transports

    A transport is faithful when a request handed to the client stub reaches
    the server's handler unchanged (under some context of the server's side)
    and what the handler does and returns is what the stub does and returns. *)
Definition faithful {W context Resp : Type}
    (stub handler : context -> ptr Stack -> M W (ptr Resp * error)) : Prop :=
  forall (ctx : context) (req : Stack) (w : W),
    exists sctx : context, stub ctx (Some req) w = handler sctx (Some req) w.

(** The in-process transport: the stub calls the handler, with [sctx] as the
    handler's context. *)
Definition loopback_PreCreate {W context : Type} (sctx : context)
    (srv : PreCreateServer W context) : PreCreateClient W context :=
  {| PreCreateClient_Execute := fun _ req => PreCreateServer_Execute srv sctx req |}.

Definition loopback_PostCreate {W context : Type} (sctx : context)
    (srv : PostCreateServer W context) : PostCreateClient W context :=
  {| PostCreateClient_Execute := fun _ req => PostCreateServer_Execute srv sctx req |}.

Definition loopback_PreDelete {W context : Type} (sctx : context)
    (srv : PreDeleteServer W context) : PreDeleteClient W context :=
  {| PreDeleteClient_Execute := fun _ req => PreDeleteServer_Execute srv sctx req |}.

Definition loopback_PostDelete {W context : Type} (sctx : context)
    (srv : PostDeleteServer W context) : PostDeleteClient W context :=
  {| PostDeleteClient_Execute := fun _ req => PostDeleteServer_Execute srv sctx req |}.

(** Stubs that answer [r] to every request and leave the state alone. *)
Definition answering_PreCreate {W context : Type} (r : ptr Proceed * error)
  : PreCreateClient W context :=
  {| PreCreateClient_Execute := fun _ _ w => Returned r w |}.

Definition answering_PostCreate {W context : Type} (r : ptr Empty * error)
  : PostCreateClient W context :=
  {| PostCreateClient_Execute := fun _ _ w => Returned r w |}.

Definition answering_PreDelete {W context : Type} (r : ptr Proceed * error)
  : PreDeleteClient W context :=
  {| PreDeleteClient_Execute := fun _ _ w => Returned r w |}.

Definition answering_PostDelete {W context : Type} (r : ptr Empty * error)
  : PostDeleteClient W context :=
  {| PostDeleteClient_Execute := fun _ _ w => Returned r w |}.

(** Implementations used as examples: a pre-hook that vetoes the stacks
    whose name is in the state, a post-hook that counts its calls. *)
Definition vetoing (stackname : string) : M (list string) bool :=
  fun w => Returned (if in_dec string_dec stackname w then true else false) w.

Definition counting (stackname : string) : M nat unit :=
  fun n => Returned tt (S n).

(** An identifier with bytes outside ASCII: "stack-" followed by the two
    bytes of U+00E9 in UTF-8. *)
Definition non_ascii_name : string :=
  "stack-" ++ String "195"%char (String "169"%char "").

(** A registry of services: [registering] notes the server handle it is
    given a service for. *)
Definition registering {Server Srv : Type} (s : Server) (srv : iface Srv)
  : M (list Server) unit :=
  fun w => Returned tt (w ++ [s])%list.

(** A stub constructor that keeps the connection it is given. *)
Definition connecting {W ClientConn Stub : Type} (mk : ClientConn -> Stub)
    (c : ClientConn) : M W (iface Stub) :=
  fun w => Returned (Some (mk c)) w.

(** ** Observing a stub, and calls in a row

    [panicked o]: the code ended in a panic. *)
Definition panicked {St A : Type} (o : outcome St A) : Prop :=
  exists s : St, o = Panicked s.

(** [recorded f] behaves as the stub method [f] and appends the context and
    the request it was called with to a log kept beside the state of [f]:
    one entry per remote call. *)
Definition recorded {W context Resp : Type}
    (f : context -> ptr Stack -> M W (ptr Resp * error))
  : context -> ptr Stack -> M (W * list (context * ptr Stack)) (ptr Resp * error) :=
  fun ctx req s =>
    match f ctx req (fst s) with
    | Returned a w' => Returned a (w', (snd s ++ [(ctx, req)])%list)
    | Panicked w' => Panicked (w', (snd s ++ [(ctx, req)])%list)
    end.

Definition recorded_PreCreate {W context : Type} (c : PreCreateClient W context)
  : PreCreateClient (W * list (context * ptr Stack)) context :=
  {| PreCreateClient_Execute := recorded (PreCreateClient_Execute c) |}.

Definition recorded_PostCreate {W context : Type} (c : PostCreateClient W context)
  : PostCreateClient (W * list (context * ptr Stack)) context :=
  {| PostCreateClient_Execute := recorded (PostCreateClient_Execute c) |}.

Definition recorded_PreDelete {W context : Type} (c : PreDeleteClient W context)
  : PreDeleteClient (W * list (context * ptr Stack)) context :=
  {| PreDeleteClient_Execute := recorded (PreDeleteClient_Execute c) |}.

Definition recorded_PostDelete {W context : Type} (c : PostDeleteClient W context)
  : PostDeleteClient (W * list (context * ptr Stack)) context :=
  {| PostDeleteClient_Execute := recorded (PostDeleteClient_Execute c) |}.

(** A caller that runs a hook for each identifier of a list, in order, and
    stops at the first panic. *)
Fixpoint for_each {St A : Type} (f : string -> M St A) (keys : list string)
  : M St unit :=
  match keys with
  | [] => ret tt
  | key :: rest => _ <- f key ;; for_each f rest
  end.

(** ** Statelessness of a method

    [keeps_receiver f]: however [f] ends, the receiver's struct is the one
    it started with.  [independent_calls f]: two calls in a row on one
    object do what each does on the object as it was before the first. *)
Definition keeps_receiver {W R A : Type} (f : Method W R A) : Prop :=
  forall (r : R) (w : W), fst (state_of (f (r, w))) = r.

Definition independent_calls {W R A : Type} (f : string -> Method W R A) : Prop :=
  forall (r : R) (k1 k2 : string) (w : W),
    call r (_ <- f k1 ;; f k2) w = (_ <- call r (f k1) ;; call r (f k2)) w.

(** ** Running the monad *)

Ltac exec :=
  cbv [GRPCPreCreateClient_Execute GRPCPostCreateClient_Execute
       GRPCPreDeleteClient_Execute GRPCPostDeleteClient_Execute
       GRPCPreCreateServer_Execute GRPCPostCreateServer_Execute
       GRPCPreDeleteServer_Execute GRPCPostDeleteServer_Execute
       PreCreateGRPCPlugin_GRPCServer PostCreateGRPCPlugin_GRPCServer
       PreDeleteGRPCPlugin_GRPCServer PostDeleteGRPCPlugin_GRPCServer
       PreCreateGRPCPlugin_GRPCClient PostCreateGRPCPlugin_GRPCClient
       PreDeleteGRPCPlugin_GRPCClient PostDeleteGRPCPlugin_GRPCClient
       bind ret Monad_M self extern call invoke deref panic fst snd
       GRPCPreCreateClient_client GRPCPostCreateClient_client
       GRPCPreDeleteClient_client GRPCPostDeleteClient_client
       GRPCPreCreateServer_Impl GRPCPostCreateServer_Impl
       GRPCPreDeleteServer_Impl GRPCPostDeleteServer_Impl
       PreCreateGRPCPlugin_Impl PostCreateGRPCPlugin_Impl
       PreDeleteGRPCPlugin_Impl PostDeleteGRPCPlugin_Impl].

Ltac exec_binding :=
  cbv [PreCreateGRPCPlugin_GRPCServer PostCreateGRPCPlugin_GRPCServer
       PreDeleteGRPCPlugin_GRPCServer PostDeleteGRPCPlugin_GRPCServer
       PreCreateGRPCPlugin_GRPCClient PostCreateGRPCPlugin_GRPCClient
       PreDeleteGRPCPlugin_GRPCClient PostDeleteGRPCPlugin_GRPCClient
       bind ret Monad_M self extern fst snd].

Lemma extern_run {W R A : Type} (c : M W A) (r : R) (w : W) :
  extern c (r, w) =
  match c w with
  | Returned a w' => Returned a (r, w')
  | Panicked w' => Panicked (r, w')
  end.
Proof. reflexivity. Qed.

Lemma call_run {W R A : Type} (obj : R) (f : Method W R A) (w : W) :
  call obj f w =
  match f (obj, w) with
  | Returned a s' => Returned a (snd s')
  | Panicked s' => Panicked (snd s')
  end.
Proof. reflexivity. Qed.

(** ** The client adapters *)

Section ClientAdapters.

Variable W : Type.
Variable context : Type.
Variable Background : context.

(** What [GRPCPreCreateClient.Execute] does, by the outcome of the
    remote call. *)
Lemma GRPCPreCreateClient_Execute_run
    (c : PreCreateClient W context) (key : string) (w : W) :
  let m := {| GRPCPreCreateClient_client := Some c |} in
  GRPCPreCreateClient_Execute Background key (m, w) =
  match PreCreateClient_Execute c Background (Some {| Name := key |}) w with
  | Returned (p, err) w' =>
      match err, p with
      | Some _, _ => Returned false (m, w')
      | None, Some r => Returned (Failed r) (m, w')
      | None, None => Panicked (m, w')
      end
  | Panicked w' => Panicked (m, w')
  end.
Proof.
  intros m. subst m. exec.
  destruct (PreCreateClient_Execute c Background _ w) as [[[r|] [e|]] w'|w'];
    reflexivity.
Qed.

Lemma GRPCPreDeleteClient_Execute_run
    (c : PreDeleteClient W context) (key : string) (w : W) :
  let m := {| GRPCPreDeleteClient_client := Some c |} in
  GRPCPreDeleteClient_Execute Background key (m, w) =
  match PreDeleteClient_Execute c Background (Some {| Name := key |}) w with
  | Returned (p, err) w' =>
      match err, p with
      | Some _, _ => Returned false (m, w')
      | None, Some r => Returned (Failed r) (m, w')
      | None, None => Panicked (m, w')
      end
  | Panicked w' => Panicked (m, w')
  end.
Proof.
  intros m. subst m. exec.
  destruct (PreDeleteClient_Execute c Background _ w) as [[[r|] [e|]] w'|w'];
    reflexivity.
Qed.

Lemma GRPCPostCreateClient_Execute_run
    (c : PostCreateClient W context) (stackname : string) (w : W) :
  let m := {| GRPCPostCreateClient_client := Some c |} in
  GRPCPostCreateClient_Execute Background stackname (m, w) =
  match PostCreateClient_Execute c Background (Some {| Name := stackname |}) w with
  | Returned _ w' => Returned tt (m, w')
  | Panicked w' => Panicked (m, w')
  end.
Proof.
  intros m. subst m. exec.
  destruct (PostCreateClient_Execute c Background _ w); reflexivity.
Qed.

Lemma GRPCPostDeleteClient_Execute_run
    (c : PostDeleteClient W context) (stackname : string) (w : W) :
  let m := {| GRPCPostDeleteClient_client := Some c |} in
  GRPCPostDeleteClient_Execute Background stackname (m, w) =
  match PostDeleteClient_Execute c Background (Some {| Name := stackname |}) w with
  | Returned _ w' => Returned tt (m, w')
  | Panicked w' => Panicked (m, w')
  end.
Proof.
  intros m. subst m. exec.
  destruct (PostDeleteClient_Execute c Background _ w); reflexivity.
Qed.

(** C1.  When the remote call of a PreCreate or PreDelete client adapter
    succeeds, with response [r], [Execute] returns the [Failed] field of
    [r], whatever the stack identifier: [true] for [failed=true], [false]
    for [failed=false]. *)
Theorem pre_client_Execute_returns_Failed :
  (forall (c : PreCreateClient W context) (key : string) (r : Proceed) (w w' : W),
      PreCreateClient_Execute c Background (Some {| Name := key |}) w
      = Returned (Some r, None) w' ->
      GRPCPreCreateClient_Execute Background key
        ({| GRPCPreCreateClient_client := Some c |}, w)
      = Returned (Failed r) ({| GRPCPreCreateClient_client := Some c |}, w'))
  /\
  (forall (c : PreDeleteClient W context) (key : string) (r : Proceed) (w w' : W),
      PreDeleteClient_Execute c Background (Some {| Name := key |}) w
      = Returned (Some r, None) w' ->
      GRPCPreDeleteClient_Execute Background key
        ({| GRPCPreDeleteClient_client := Some c |}, w)
      = Returned (Failed r) ({| GRPCPreDeleteClient_client := Some c |}, w')).
Proof.
  split; intros c key r w w' Hcall.
  - rewrite GRPCPreCreateClient_Execute_run, Hcall. reflexivity.
  - rewrite GRPCPreDeleteClient_Execute_run, Hcall. reflexivity.
Qed.

(** C2.  When the remote call of a PreCreate or PreDelete client adapter
    fails with an error [e], [Execute] returns [false], whatever the
    stack identifier and whatever came with the error; the result is a
    boolean, the error reaches no caller. *)
Theorem pre_client_Execute_fails_open :
  (forall (c : PreCreateClient W context) (key : string)
          (p : ptr Proceed) (e : string) (w w' : W),
      PreCreateClient_Execute c Background (Some {| Name := key |}) w
      = Returned (p, Some e) w' ->
      GRPCPreCreateClient_Execute Background key
        ({| GRPCPreCreateClient_client := Some c |}, w)
      = Returned false ({| GRPCPreCreateClient_client := Some c |}, w'))
  /\
  (forall (c : PreDeleteClient W context) (key : string)
          (p : ptr Proceed) (e : string) (w w' : W),
      PreDeleteClient_Execute c Background (Some {| Name := key |}) w
      = Returned (p, Some e) w' ->
      GRPCPreDeleteClient_Execute Background key
        ({| GRPCPreDeleteClient_client := Some c |}, w)
      = Returned false ({| GRPCPreDeleteClient_client := Some c |}, w')).
Proof.
  split; intros c key p e w w' Hcall.
  - rewrite GRPCPreCreateClient_Execute_run, Hcall. reflexivity.
  - rewrite GRPCPreDeleteClient_Execute_run, Hcall. reflexivity.
Qed.

(** C3.  A PostCreate or PostDelete client adapter's [Execute] returns
    unit whatever the remote call returns: with or without a response,
    with or without an error.  The error is dropped. *)
Theorem post_client_Execute_discards_result :
  (forall (c : PostCreateClient W context) (stackname : string)
          (p : ptr Empty) (err : error) (w w' : W),
      PostCreateClient_Execute c Background (Some {| Name := stackname |}) w
      = Returned (p, err) w' ->
      GRPCPostCreateClient_Execute Background stackname
        ({| GRPCPostCreateClient_client := Some c |}, w)
      = Returned tt ({| GRPCPostCreateClient_client := Some c |}, w'))
  /\
  (forall (c : PostDeleteClient W context) (stackname : string)
          (p : ptr Empty) (err : error) (w w' : W),
      PostDeleteClient_Execute c Background (Some {| Name := stackname |}) w
      = Returned (p, err) w' ->
      GRPCPostDeleteClient_Execute Background stackname
        ({| GRPCPostDeleteClient_client := Some c |}, w)
      = Returned tt ({| GRPCPostDeleteClient_client := Some c |}, w')).
Proof.
  split; intros c stackname p err w w' Hcall.
  - rewrite GRPCPostCreateClient_Execute_run, Hcall. reflexivity.
  - rewrite GRPCPostDeleteClient_Execute_run, Hcall. reflexivity.
Qed.

Lemma keeps_receiver_independent {R A : Type} (f : string -> Method W R A) :
  (forall key, keeps_receiver (f key)) -> independent_calls f.
Proof.
  intros Hkeep r k1 k2 w. specialize (Hkeep k1 r w).
  cbv [call bind Monad_M]. destruct (f k1 (r, w)) as [a [r' w']|[r' w']];
    cbn in Hkeep |- *; subst; reflexivity.
Qed.

(** C9.  [Execute] of each of the four client adapters leaves the
    adapter's struct, hence the stub it stores, as it was, however the
    call ends; so a call on an adapter does what it would have done had
    no call been made on it before. *)
Theorem client_Execute_stateless :
  ((forall key, keeps_receiver (GRPCPreCreateClient_Execute (W:=W) Background key))
   /\ independent_calls (GRPCPreCreateClient_Execute (W:=W) Background))
  /\
  ((forall key, keeps_receiver (GRPCPostCreateClient_Execute (W:=W) Background key))
   /\ independent_calls (GRPCPostCreateClient_Execute (W:=W) Background))
  /\
  ((forall key, keeps_receiver (GRPCPreDeleteClient_Execute (W:=W) Background key))
   /\ independent_calls (GRPCPreDeleteClient_Execute (W:=W) Background))
  /\
  ((forall key, keeps_receiver (GRPCPostDeleteClient_Execute (W:=W) Background key))
   /\ independent_calls (GRPCPostDeleteClient_Execute (W:=W) Background)).
Proof.
  assert (H1 : forall key,
             keeps_receiver (GRPCPreCreateClient_Execute (W:=W) Background key)).
  { intros key [[c|]] w; [|reflexivity]. exec.
    destruct (PreCreateClient_Execute c Background _ w) as [[[r|] [e|]] w'|w'];
      reflexivity. }
  assert (H2 : forall key,
             keeps_receiver (GRPCPostCreateClient_Execute (W:=W) Background key)).
  { intros key [[c|]] w; [|reflexivity]. exec.
    destruct (PostCreateClient_Execute c Background _ w); reflexivity. }
  assert (H3 : forall key,
             keeps_receiver (GRPCPreDeleteClient_Execute (W:=W) Background key)).
  { intros key [[c|]] w; [|reflexivity]. exec.
    destruct (PreDeleteClient_Execute c Background _ w) as [[[r|] [e|]] w'|w'];
      reflexivity. }
  assert (H4 : forall key,
             keeps_receiver (GRPCPostDeleteClient_Execute (W:=W) Background key)).
  { intros key [[c|]] w; [|reflexivity]. exec.
    destruct (PostDeleteClient_Execute c Background _ w); reflexivity. }
  repeat split; auto using keeps_receiver_independent.
Qed.

End ClientAdapters.

Lemma pre_client_Execute_returns_Failed_witness :
  (GRPCPreCreateClient_Execute tt "prod-stack-1"
     ({| GRPCPreCreateClient_client :=
           Some (answering_PreCreate (Some {| Failed := true |}, None)) |}, 0)
   = Returned true
       ({| GRPCPreCreateClient_client :=
             Some (answering_PreCreate (Some {| Failed := true |}, None)) |}, 0))
  /\
  (GRPCPreDeleteClient_Execute tt ""
     ({| GRPCPreDeleteClient_client :=
           Some (answering_PreDelete (Some {| Failed := false |}, None)) |}, 7)
   = Returned false
       ({| GRPCPreDeleteClient_client :=
             Some (answering_PreDelete (Some {| Failed := false |}, None)) |}, 7)).
Proof.
  split.
  - apply (proj1 (@pre_client_Execute_returns_Failed nat unit tt)
             (answering_PreCreate (Some {| Failed := true |}, None))
             "prod-stack-1" {| Failed := true |} 0 0).
    reflexivity.
  - apply (proj2 (@pre_client_Execute_returns_Failed nat unit tt)
             (answering_PreDelete (Some {| Failed := false |}, None))
             "" {| Failed := false |} 7 7).
    reflexivity.
Defined.

Lemma pre_client_Execute_fails_open_witness :
  (GRPCPreCreateClient_Execute tt "prod-stack-1"
     ({| GRPCPreCreateClient_client :=
           Some (answering_PreCreate (None, Some "connection refused")) |}, 0)
   = Returned false
       ({| GRPCPreCreateClient_client :=
             Some (answering_PreCreate (None, Some "connection refused")) |}, 0))
  /\
  (GRPCPreDeleteClient_Execute tt "prod-stack-1"
     ({| GRPCPreDeleteClient_client :=
           Some (answering_PreDelete
                   (Some {| Failed := true |}, Some "deadline exceeded")) |}, 0)
   = Returned false
       ({| GRPCPreDeleteClient_client :=
             Some (answering_PreDelete
                     (Some {| Failed := true |}, Some "deadline exceeded")) |}, 0)).
Proof.
  split.
  - apply (proj1 (@pre_client_Execute_fails_open nat unit tt)
             (answering_PreCreate (None, Some "connection refused"))
             "prod-stack-1" None "connection refused" 0 0).
    reflexivity.
  - apply (proj2 (@pre_client_Execute_fails_open nat unit tt)
             (answering_PreDelete
                (Some {| Failed := true |}, Some "deadline exceeded"))
             "prod-stack-1" (Some {| Failed := true |}) "deadline exceeded" 0 0).
    reflexivity.
Defined.

Lemma post_client_Execute_discards_result_witness :
  (GRPCPostCreateClient_Execute tt "prod-stack-1"
     ({| GRPCPostCreateClient_client :=
           Some (answering_PostCreate (None, Some "connection refused")) |}, 0)
   = Returned tt
       ({| GRPCPostCreateClient_client :=
             Some (answering_PostCreate (None, Some "connection refused")) |}, 0))
  /\
  (GRPCPostDeleteClient_Execute tt "prod-stack-1"
     ({| GRPCPostDeleteClient_client :=
           Some (answering_PostDelete (Some Build_Empty, None)) |}, 0)
   = Returned tt
       ({| GRPCPostDeleteClient_client :=
             Some (answering_PostDelete (Some Build_Empty, None)) |}, 0)).
Proof.
  split.
  - apply (proj1 (@post_client_Execute_discards_result nat unit tt)
             (answering_PostCreate (None, Some "connection refused"))
             "prod-stack-1" None (Some "connection refused") 0 0).
    reflexivity.
  - apply (proj2 (@post_client_Execute_discards_result nat unit tt)
             (answering_PostDelete (Some Build_Empty, None))
             "prod-stack-1" (Some Build_Empty) None 0 0).
    reflexivity.
Defined.

(** ** The server adapters *)

Section ServerAdapters.

Variable W : Type.
Variable context : Type.

(** What the handlers do, by the outcome of the implementation. *)
Lemma GRPCPreCreateServer_Execute_run
    (impl : PreCreate W) (ctx : context) (req : Stack) (w : W) :
  let m := {| GRPCPreCreateServer_Impl := Some impl |} in
  GRPCPreCreateServer_Execute ctx (Some req) (m, w) =
  match PreCreate_Execute impl (Name req) w with
  | Returned res w' => Returned (Some {| Failed := res |}, None) (m, w')
  | Panicked w' => Panicked (m, w')
  end.
Proof.
  intros m. subst m. exec.
  destruct (PreCreate_Execute impl (Name req) w); reflexivity.
Qed.

Lemma GRPCPostCreateServer_Execute_run
    (impl : PostCreate W) (ctx : context) (req : Stack) (w : W) :
  let m := {| GRPCPostCreateServer_Impl := Some impl |} in
  GRPCPostCreateServer_Execute ctx (Some req) (m, w) =
  match PostCreate_Execute impl (Name req) w with
  | Returned _ w' => Returned (Some Build_Empty, None) (m, w')
  | Panicked w' => Panicked (m, w')
  end.
Proof.
  intros m. subst m. exec.
  destruct (PostCreate_Execute impl (Name req) w); reflexivity.
Qed.

Lemma GRPCPreDeleteServer_Execute_run
    (impl : PreDelete W) (ctx : context) (req : Stack) (w : W) :
  let m := {| GRPCPreDeleteServer_Impl := Some impl |} in
  GRPCPreDeleteServer_Execute ctx (Some req) (m, w) =
  match PreDelete_Execute impl (Name req) w with
  | Returned res w' => Returned (Some {| Failed := res |}, None) (m, w')
  | Panicked w' => Panicked (m, w')
  end.
Proof.
  intros m. subst m. exec.
  destruct (PreDelete_Execute impl (Name req) w); reflexivity.
Qed.

Lemma GRPCPostDeleteServer_Execute_run
    (impl : PostDelete W) (ctx : context) (req : Stack) (w : W) :
  let m := {| GRPCPostDeleteServer_Impl := Some impl |} in
  GRPCPostDeleteServer_Execute ctx (Some req) (m, w) =
  match PostDelete_Execute impl (Name req) w with
  | Returned _ w' => Returned (Some Build_Empty, None) (m, w')
  | Panicked w' => Panicked (m, w')
  end.
Proof.
  intros m. subst m. exec.
  destruct (PostDelete_Execute impl (Name req) w); reflexivity.
Qed.

Lemma traced_run {A : Type} (f : string -> M W A) (stackname : string)
    (w : W) (log : list string) :
  traced f stackname (w, log) =
  match f stackname w with
  | Returned a w' => Returned a (w', (log ++ [stackname])%list)
  | Panicked w' => Panicked (w', (log ++ [stackname])%list)
  end.
Proof. reflexivity. Qed.

(** C4.  For every request, the handler of each of the four server
    adapters calls [Execute] of the implementation it wraps exactly once,
    with the request's [Name]: the log of the calls the implementation
    received grows by that one name, and the state is the one a single
    call leaves.  The handlers of the pre-hooks return the implementation's
    boolean in the response's [Failed]. *)
Theorem server_Execute_calls_Impl_once :
  (forall (impl : PreCreate W) (ctx : context) (req : Stack)
          (w : W) (log : list string),
      let m := {| GRPCPreCreateServer_Impl := Some (traced_PreCreate impl) |} in
      GRPCPreCreateServer_Execute ctx (Some req) (m, (w, log)) =
      match PreCreate_Execute impl (Name req) w with
      | Returned res w' =>
          Returned (Some {| Failed := res |}, None)
                   (m, (w', (log ++ [Name req])%list))
      | Panicked w' => Panicked (m, (w', (log ++ [Name req])%list))
      end)
  /\
  (forall (impl : PostCreate W) (ctx : context) (req : Stack)
          (w : W) (log : list string),
      let m := {| GRPCPostCreateServer_Impl := Some (traced_PostCreate impl) |} in
      GRPCPostCreateServer_Execute ctx (Some req) (m, (w, log)) =
      match PostCreate_Execute impl (Name req) w with
      | Returned _ w' =>
          Returned (Some Build_Empty, None) (m, (w', (log ++ [Name req])%list))
      | Panicked w' => Panicked (m, (w', (log ++ [Name req])%list))
      end)
  /\
  (forall (impl : PreDelete W) (ctx : context) (req : Stack)
          (w : W) (log : list string),
      let m := {| GRPCPreDeleteServer_Impl := Some (traced_PreDelete impl) |} in
      GRPCPreDeleteServer_Execute ctx (Some req) (m, (w, log)) =
      match PreDelete_Execute impl (Name req) w with
      | Returned res w' =>
          Returned (Some {| Failed := res |}, None)
                   (m, (w', (log ++ [Name req])%list))
      | Panicked w' => Panicked (m, (w', (log ++ [Name req])%list))
      end)
  /\
  (forall (impl : PostDelete W) (ctx : context) (req : Stack)
          (w : W) (log : list string),
      let m := {| GRPCPostDeleteServer_Impl := Some (traced_PostDelete impl) |} in
      GRPCPostDeleteServer_Execute ctx (Some req) (m, (w, log)) =
      match PostDelete_Execute impl (Name req) w with
      | Returned _ w' =>
          Returned (Some Build_Empty, None) (m, (w', (log ++ [Name req])%list))
      | Panicked w' => Panicked (m, (w', (log ++ [Name req])%list))
      end).
Proof.
  repeat split; intros impl ctx req w log m; subst m; exec; cbn;
    rewrite traced_run.
  - destruct (PreCreate_Execute impl (Name req) w); reflexivity.
  - destruct (PostCreate_Execute impl (Name req) w); reflexivity.
  - destruct (PreDelete_Execute impl (Name req) w); reflexivity.
  - destruct (PostDelete_Execute impl (Name req) w); reflexivity.
Qed.

(** C8.  The handlers never fail on their own: for every request and
    every result the wrapped implementation returns, each of the four
    handlers returns a response envelope and a nil error. *)
Theorem server_Execute_returns_nil_error :
  (forall (impl : PreCreate W) (ctx : context) (req : Stack)
          (res : bool) (w w' : W),
      PreCreate_Execute impl (Name req) w = Returned res w' ->
      exists resp : Proceed,
        GRPCPreCreateServer_Execute ctx (Some req)
          ({| GRPCPreCreateServer_Impl := Some impl |}, w)
        = Returned (Some resp, None)
                   ({| GRPCPreCreateServer_Impl := Some impl |}, w'))
  /\
  (forall (impl : PostCreate W) (ctx : context) (req : Stack)
          (res : unit) (w w' : W),
      PostCreate_Execute impl (Name req) w = Returned res w' ->
      exists resp : Empty,
        GRPCPostCreateServer_Execute ctx (Some req)
          ({| GRPCPostCreateServer_Impl := Some impl |}, w)
        = Returned (Some resp, None)
                   ({| GRPCPostCreateServer_Impl := Some impl |}, w'))
  /\
  (forall (impl : PreDelete W) (ctx : context) (req : Stack)
          (res : bool) (w w' : W),
      PreDelete_Execute impl (Name req) w = Returned res w' ->
      exists resp : Proceed,
        GRPCPreDeleteServer_Execute ctx (Some req)
          ({| GRPCPreDeleteServer_Impl := Some impl |}, w)
        = Returned (Some resp, None)
                   ({| GRPCPreDeleteServer_Impl := Some impl |}, w'))
  /\
  (forall (impl : PostDelete W) (ctx : context) (req : Stack)
          (res : unit) (w w' : W),
      PostDelete_Execute impl (Name req) w = Returned res w' ->
      exists resp : Empty,
        GRPCPostDeleteServer_Execute ctx (Some req)
          ({| GRPCPostDeleteServer_Impl := Some impl |}, w)
        = Returned (Some resp, None)
                   ({| GRPCPostDeleteServer_Impl := Some impl |}, w')).
Proof.
  repeat split; intros impl ctx req res w w' Himpl.
  - rewrite GRPCPreCreateServer_Execute_run, Himpl. eexists. reflexivity.
  - rewrite GRPCPostCreateServer_Execute_run, Himpl. eexists. reflexivity.
  - rewrite GRPCPreDeleteServer_Execute_run, Himpl. eexists. reflexivity.
  - rewrite GRPCPostDeleteServer_Execute_run, Himpl. eexists. reflexivity.
Qed.

End ServerAdapters.

Lemma server_Execute_returns_nil_error_witness :
  (exists resp : Proceed,
      GRPCPreCreateServer_Execute tt (Some {| Name := "prod-stack-1" |})
        ({| GRPCPreCreateServer_Impl := Some {| PreCreate_Execute := vetoing |} |},
         ["prod-stack-1"])
      = Returned (Some resp, None)
          ({| GRPCPreCreateServer_Impl := Some {| PreCreate_Execute := vetoing |} |},
           ["prod-stack-1"]))
  /\
  (exists resp : Empty,
      GRPCPostCreateServer_Execute tt (Some {| Name := "prod-stack-1" |})
        ({| GRPCPostCreateServer_Impl := Some {| PostCreate_Execute := counting |} |},
         0)
      = Returned (Some resp, None)
          ({| GRPCPostCreateServer_Impl := Some {| PostCreate_Execute := counting |} |},
           1))
  /\
  (exists resp : Proceed,
      GRPCPreDeleteServer_Execute tt (Some {| Name := "dev-stack" |})
        ({| GRPCPreDeleteServer_Impl := Some {| PreDelete_Execute := vetoing |} |},
         ["prod-stack-1"])
      = Returned (Some resp, None)
          ({| GRPCPreDeleteServer_Impl := Some {| PreDelete_Execute := vetoing |} |},
           ["prod-stack-1"]))
  /\
  (exists resp : Empty,
      GRPCPostDeleteServer_Execute tt (Some {| Name := "" |})
        ({| GRPCPostDeleteServer_Impl := Some {| PostDelete_Execute := counting |} |},
         4)
      = Returned (Some resp, None)
          ({| GRPCPostDeleteServer_Impl := Some {| PostDelete_Execute := counting |} |},
           5)).
Proof.
  destruct (@server_Execute_returns_nil_error (list string) unit)
    as (Hprecreate & _ & Hpredelete & _).
  destruct (@server_Execute_returns_nil_error nat unit)
    as (_ & Hpostcreate & _ & Hpostdelete).
  repeat split.
  - apply (Hprecreate {| PreCreate_Execute := vetoing |} tt
             {| Name := "prod-stack-1" |} true). reflexivity.
  - apply (Hpostcreate {| PostCreate_Execute := counting |} tt
             {| Name := "prod-stack-1" |} tt). reflexivity.
  - apply (Hpredelete {| PreDelete_Execute := vetoing |} tt
             {| Name := "dev-stack" |} false). reflexivity.
  - apply (Hpostdelete {| PostDelete_Execute := counting |} tt
             {| Name := "" |} tt). reflexivity.
Defined.

(** ** Client and server adapters over a faithful transport *)

Section Composition.

Variable W : Type.
Variable context : Type.
Variable Background : context.

Lemma loopback_PreCreate_faithful (sctx : context) (srv : PreCreateServer W context) :
  faithful (PreCreateClient_Execute (loopback_PreCreate sctx srv))
           (PreCreateServer_Execute srv).
Proof. intros ctx req w. exists sctx. reflexivity. Qed.

Lemma loopback_PostCreate_faithful (sctx : context) (srv : PostCreateServer W context) :
  faithful (PostCreateClient_Execute (loopback_PostCreate sctx srv))
           (PostCreateServer_Execute srv).
Proof. intros ctx req w. exists sctx. reflexivity. Qed.

Lemma loopback_PreDelete_faithful (sctx : context) (srv : PreDeleteServer W context) :
  faithful (PreDeleteClient_Execute (loopback_PreDelete sctx srv))
           (PreDeleteServer_Execute srv).
Proof. intros ctx req w. exists sctx. reflexivity. Qed.

Lemma loopback_PostDelete_faithful (sctx : context) (srv : PostDeleteServer W context) :
  faithful (PostDeleteClient_Execute (loopback_PostDelete sctx srv))
           (PostDeleteServer_Execute srv).
Proof. intros ctx req w. exists sctx. reflexivity. Qed.

(** The client adapter of a hook over a faithful transport to the server
    adapter of [impl] does what [impl] does. *)
Lemma PreCreate_over_transport
    (impl : PreCreate W) (c : PreCreateClient W context) (key : string) (w : W) :
  let m := {| GRPCPreCreateClient_client := Some c |} in
  faithful (PreCreateClient_Execute c)
           (PreCreateServer_Execute
              (GRPCPreCreateServer_as_PreCreateServer context
                 {| GRPCPreCreateServer_Impl := Some impl |})) ->
  GRPCPreCreateClient_Execute Background key (m, w) =
  match PreCreate_Execute impl key w with
  | Returned res w' => Returned res (m, w')
  | Panicked w' => Panicked (m, w')
  end.
Proof.
  intros m Hfaithful. subst m.
  rewrite GRPCPreCreateClient_Execute_run.
  destruct (Hfaithful Background {| Name := key |} w) as [sctx ->].
  cbn [PreCreateServer_Execute GRPCPreCreateServer_as_PreCreateServer].
  rewrite call_run, GRPCPreCreateServer_Execute_run. cbn [Name].
  destruct (PreCreate_Execute impl key w); reflexivity.
Qed.

Lemma PostCreate_over_transport
    (impl : PostCreate W) (c : PostCreateClient W context)
    (stackname : string) (w : W) :
  let m := {| GRPCPostCreateClient_client := Some c |} in
  faithful (PostCreateClient_Execute c)
           (PostCreateServer_Execute
              (GRPCPostCreateServer_as_PostCreateServer context
                 {| GRPCPostCreateServer_Impl := Some impl |})) ->
  GRPCPostCreateClient_Execute Background stackname (m, w) =
  match PostCreate_Execute impl stackname w with
  | Returned _ w' => Returned tt (m, w')
  | Panicked w' => Panicked (m, w')
  end.
Proof.
  intros m Hfaithful. subst m.
  rewrite GRPCPostCreateClient_Execute_run.
  destruct (Hfaithful Background {| Name := stackname |} w) as [sctx ->].
  cbn [PostCreateServer_Execute GRPCPostCreateServer_as_PostCreateServer].
  rewrite call_run, GRPCPostCreateServer_Execute_run. cbn [Name].
  destruct (PostCreate_Execute impl stackname w); reflexivity.
Qed.

Lemma PreDelete_over_transport
    (impl : PreDelete W) (c : PreDeleteClient W context) (key : string) (w : W) :
  let m := {| GRPCPreDeleteClient_client := Some c |} in
  faithful (PreDeleteClient_Execute c)
           (PreDeleteServer_Execute
              (GRPCPreDeleteServer_as_PreDeleteServer context
                 {| GRPCPreDeleteServer_Impl := Some impl |})) ->
  GRPCPreDeleteClient_Execute Background key (m, w) =
  match PreDelete_Execute impl key w with
  | Returned res w' => Returned res (m, w')
  | Panicked w' => Panicked (m, w')
  end.
Proof.
  intros m Hfaithful. subst m.
  rewrite GRPCPreDeleteClient_Execute_run.
  destruct (Hfaithful Background {| Name := key |} w) as [sctx ->].
  cbn [PreDeleteServer_Execute GRPCPreDeleteServer_as_PreDeleteServer].
  rewrite call_run, GRPCPreDeleteServer_Execute_run. cbn [Name].
  destruct (PreDelete_Execute impl key w); reflexivity.
Qed.

Lemma PostDelete_over_transport
    (impl : PostDelete W) (c : PostDeleteClient W context)
    (stackname : string) (w : W) :
  let m := {| GRPCPostDeleteClient_client := Some c |} in
  faithful (PostDeleteClient_Execute c)
           (PostDeleteServer_Execute
              (GRPCPostDeleteServer_as_PostDeleteServer context
                 {| GRPCPostDeleteServer_Impl := Some impl |})) ->
  GRPCPostDeleteClient_Execute Background stackname (m, w) =
  match PostDelete_Execute impl stackname w with
  | Returned _ w' => Returned tt (m, w')
  | Panicked w' => Panicked (m, w')
  end.
Proof.
  intros m Hfaithful. subst m.
  rewrite GRPCPostDeleteClient_Execute_run.
  destruct (Hfaithful Background {| Name := stackname |} w) as [sctx ->].
  cbn [PostDeleteServer_Execute GRPCPostDeleteServer_as_PostDeleteServer].
  rewrite call_run, GRPCPostDeleteServer_Execute_run. cbn [Name].
  destruct (PostDelete_Execute impl stackname w); reflexivity.
Qed.

End Composition.

Section EndToEnd.

Variable W : Type.
Variable context : Type.
Variable Background : context.

(** C5.  The identifier a client adapter is called with is the one the
    implementation behind the server adapter receives, for every string:
    over a faithful transport, a call of the client adapter with [s] adds
    exactly [s] to the log of the names the implementation was called
    with.  Strings are sequences of arbitrary bytes, the empty one
    included. *)
Theorem identifier_round_trip :
  (forall (impl : PreCreate W) (c : PreCreateClient (W * list string) context),
      faithful (PreCreateClient_Execute c)
               (PreCreateServer_Execute
                  (GRPCPreCreateServer_as_PreCreateServer context
                     {| GRPCPreCreateServer_Impl := Some (traced_PreCreate impl) |})) ->
      forall (s : string) (w : W) (log : list string),
        snd (snd (state_of (GRPCPreCreateClient_Execute Background s
                              ({| GRPCPreCreateClient_client := Some c |}, (w, log)))))
        = (log ++ [s])%list)
  /\
  (forall (impl : PostCreate W) (c : PostCreateClient (W * list string) context),
      faithful (PostCreateClient_Execute c)
               (PostCreateServer_Execute
                  (GRPCPostCreateServer_as_PostCreateServer context
                     {| GRPCPostCreateServer_Impl := Some (traced_PostCreate impl) |})) ->
      forall (s : string) (w : W) (log : list string),
        snd (snd (state_of (GRPCPostCreateClient_Execute Background s
                              ({| GRPCPostCreateClient_client := Some c |}, (w, log)))))
        = (log ++ [s])%list)
  /\
  (forall (impl : PreDelete W) (c : PreDeleteClient (W * list string) context),
      faithful (PreDeleteClient_Execute c)
               (PreDeleteServer_Execute
                  (GRPCPreDeleteServer_as_PreDeleteServer context
                     {| GRPCPreDeleteServer_Impl := Some (traced_PreDelete impl) |})) ->
      forall (s : string) (w : W) (log : list string),
        snd (snd (state_of (GRPCPreDeleteClient_Execute Background s
                              ({| GRPCPreDeleteClient_client := Some c |}, (w, log)))))
        = (log ++ [s])%list)
  /\
  (forall (impl : PostDelete W) (c : PostDeleteClient (W * list string) context),
      faithful (PostDeleteClient_Execute c)
               (PostDeleteServer_Execute
                  (GRPCPostDeleteServer_as_PostDeleteServer context
                     {| GRPCPostDeleteServer_Impl := Some (traced_PostDelete impl) |})) ->
      forall (s : string) (w : W) (log : list string),
        snd (snd (state_of (GRPCPostDeleteClient_Execute Background s
                              ({| GRPCPostDeleteClient_client := Some c |}, (w, log)))))
        = (log ++ [s])%list).
Proof.
  repeat split; intros impl c Hfaithful s w log.
  - rewrite (@PreCreate_over_transport _ _ Background _ _ s (w, log) Hfaithful).
    cbn [PreCreate_Execute traced_PreCreate]. rewrite traced_run.
    destruct (PreCreate_Execute impl s w); reflexivity.
  - rewrite (@PostCreate_over_transport _ _ Background _ _ s (w, log) Hfaithful).
    cbn [PostCreate_Execute traced_PostCreate]. rewrite traced_run.
    destruct (PostCreate_Execute impl s w); reflexivity.
  - rewrite (@PreDelete_over_transport _ _ Background _ _ s (w, log) Hfaithful).
    cbn [PreDelete_Execute traced_PreDelete]. rewrite traced_run.
    destruct (PreDelete_Execute impl s w); reflexivity.
  - rewrite (@PostDelete_over_transport _ _ Background _ _ s (w, log) Hfaithful).
    cbn [PostDelete_Execute traced_PostDelete]. rewrite traced_run.
    destruct (PostDelete_Execute impl s w); reflexivity.
Qed.

(** C6.  Over a faithful transport, the PreCreate client adapter in front
    of the server adapter of a local implementation [impl] is, as a value
    of interface [PreCreate], a function equal to [impl]: the same outcome
    from every identifier and state.  So when [impl] returns [true] for
    "prod-stack-1", so does the client's [Execute]. *)
Theorem PreCreate_client_refines_Impl
    (impl : PreCreate W) (c : PreCreateClient W context) :
  faithful (PreCreateClient_Execute c)
           (PreCreateServer_Execute
              (GRPCPreCreateServer_as_PreCreateServer context
                 {| GRPCPreCreateServer_Impl := Some impl |})) ->
  let client := GRPCPreCreateClient_as_PreCreate Background
                  {| GRPCPreCreateClient_client := Some c |} in
  (forall (key : string) (w : W),
      PreCreate_Execute client key w = PreCreate_Execute impl key w)
  /\
  (forall w w' : W,
      PreCreate_Execute impl "prod-stack-1" w = Returned true w' ->
      PreCreate_Execute client "prod-stack-1" w = Returned true w').
Proof.
  intros Hfaithful client.
  assert (Hsame : forall key w,
             PreCreate_Execute client key w = PreCreate_Execute impl key w).
  { intros key w. subst client.
    cbn [PreCreate_Execute GRPCPreCreateClient_as_PreCreate].
    rewrite call_run, (@PreCreate_over_transport _ _ Background _ _ key w Hfaithful).
    destruct (PreCreate_Execute impl key w); reflexivity. }
  split; [exact Hsame|].
  intros w w' Himpl. rewrite Hsame. exact Himpl.
Qed.

(** C7.  For every PostDelete implementation, one call of the client
    adapter's [Execute] with "prod-stack-1", over a faithful transport,
    makes the implementation's side effect happen exactly once: the count
    of the calls it received goes up by one (from 0 to 1), its state is the
    one a single call leaves, and the client's call returns unit. *)
Theorem PostDelete_side_effect_once
    (impl : PostDelete W) (c : PostDeleteClient (W * nat) context) :
  faithful (PostDeleteClient_Execute c)
           (PostDeleteServer_Execute
              (GRPCPostDeleteServer_as_PostDeleteServer context
                 {| GRPCPostDeleteServer_Impl := Some (counted_PostDelete impl) |})) ->
  forall (w w' : W) (n : nat),
    PostDelete_Execute impl "prod-stack-1" w = Returned tt w' ->
    GRPCPostDeleteClient_Execute Background "prod-stack-1"
      ({| GRPCPostDeleteClient_client := Some c |}, (w, n))
    = Returned tt ({| GRPCPostDeleteClient_client := Some c |}, (w', S n)).
Proof.
  intros Hfaithful w w' n Himpl.
  rewrite (@PostDelete_over_transport _ _ Background _ _ "prod-stack-1" (w, n) Hfaithful).
  cbn [PostDelete_Execute counted_PostDelete]. unfold counted.
  cbn [fst snd]. rewrite Himpl. reflexivity.
Qed.

End EndToEnd.

Lemma identifier_round_trip_witness :
  (snd (snd (state_of
     (GRPCPreCreateClient_Execute tt ""
        ({| GRPCPreCreateClient_client :=
              Some (loopback_PreCreate tt
                      (GRPCPreCreateServer_as_PreCreateServer unit
                         {| GRPCPreCreateServer_Impl :=
                              Some (traced_PreCreate
                                      {| PreCreate_Execute := vetoing |}) |})) |},
         ([], [])))))
   = [""])
  /\
  (snd (snd (state_of
     (GRPCPostCreateClient_Execute tt non_ascii_name
        ({| GRPCPostCreateClient_client :=
              Some (loopback_PostCreate tt
                      (GRPCPostCreateServer_as_PostCreateServer unit
                         {| GRPCPostCreateServer_Impl :=
                              Some (traced_PostCreate
                                      {| PostCreate_Execute := counting |}) |})) |},
         (0, ["prod-stack-1"])))))
   = ["prod-stack-1"; non_ascii_name])
  /\
  (snd (snd (state_of
     (GRPCPreDeleteClient_Execute tt non_ascii_name
        ({| GRPCPreDeleteClient_client :=
              Some (loopback_PreDelete tt
                      (GRPCPreDeleteServer_as_PreDeleteServer unit
                         {| GRPCPreDeleteServer_Impl :=
                              Some (traced_PreDelete
                                      {| PreDelete_Execute := vetoing |}) |})) |},
         ([non_ascii_name], [])))))
   = [non_ascii_name])
  /\
  (snd (snd (state_of
     (GRPCPostDeleteClient_Execute tt "prod-stack-1"
        ({| GRPCPostDeleteClient_client :=
              Some (loopback_PostDelete tt
                      (GRPCPostDeleteServer_as_PostDeleteServer unit
                         {| GRPCPostDeleteServer_Impl :=
                              Some (traced_PostDelete
                                      {| PostDelete_Execute := counting |}) |})) |},
         (0, [])))))
   = ["prod-stack-1"]).
Proof.
  destruct (@identifier_round_trip (list string) unit tt)
    as (Hprecreate & _ & Hpredelete & _).
  destruct (@identifier_round_trip nat unit tt)
    as (_ & Hpostcreate & _ & Hpostdelete).
  split; [|split; [|split]].
  - apply (Hprecreate {| PreCreate_Execute := vetoing |}).
    intros ctx req w. exists tt. reflexivity.
  - apply (Hpostcreate {| PostCreate_Execute := counting |}).
    intros ctx req w. exists tt. reflexivity.
  - apply (Hpredelete {| PreDelete_Execute := vetoing |}).
    intros ctx req w. exists tt. reflexivity.
  - apply (Hpostdelete {| PostDelete_Execute := counting |}).
    intros ctx req w. exists tt. reflexivity.
Defined.

Lemma PreCreate_client_refines_Impl_witness :
  PreCreate_Execute
    (GRPCPreCreateClient_as_PreCreate tt
       {| GRPCPreCreateClient_client :=
            Some (loopback_PreCreate tt
                    (GRPCPreCreateServer_as_PreCreateServer unit
                       {| GRPCPreCreateServer_Impl :=
                            Some {| PreCreate_Execute := vetoing |} |})) |})
    "prod-stack-1" ["dev-stack"; "prod-stack-1"]
  = Returned true ["dev-stack"; "prod-stack-1"].
Proof.
  apply (@PreCreate_client_refines_Impl (list string) unit tt
           {| PreCreate_Execute := vetoing |}).
  - intros ctx req w. exists tt. reflexivity.
  - reflexivity.
Defined.

Lemma PostDelete_side_effect_once_witness :
  GRPCPostDeleteClient_Execute tt "prod-stack-1"
    ({| GRPCPostDeleteClient_client :=
          Some (loopback_PostDelete tt
                  (GRPCPostDeleteServer_as_PostDeleteServer unit
                     {| GRPCPostDeleteServer_Impl :=
                          Some (counted_PostDelete
                                  {| PostDelete_Execute := counting |}) |})) |},
     (0, 0))
  = Returned tt
      ({| GRPCPostDeleteClient_client :=
            Some (loopback_PostDelete tt
                    (GRPCPostDeleteServer_as_PostDeleteServer unit
                       {| GRPCPostDeleteServer_Impl :=
                            Some (counted_PostDelete
                                    {| PostDelete_Execute := counting |}) |})) |},
       (1, 1)).
Proof.
  apply (@PostDelete_side_effect_once nat unit tt
           {| PostDelete_Execute := counting |}).
  - intros ctx req w. exists tt. reflexivity.
  - reflexivity.
Defined.

(** ** Transport binding *)

Section Binding.

Variable W : Type.
Variable context : Type.
Variable Plugin : Type.
Variable GRPCBroker : Type.
Variable Server : Type.
Variable ClientConn : Type.

(** C10.  The binding methods of the four plugin structs never fail.
    [GRPCServer] hands to [proto.RegisterXServer] the server handle and the
    server adapter wrapping the plugin's [Impl]; once the registration
    returns, it returns a nil error.  [GRPCClient] returns, with a nil
    error, the client adapter whose stub is the one [proto.NewXClient]
    made for the connection it was given.  Neither changes the plugin
    struct. *)
Theorem plugin_binding_never_fails :
  ((forall (register : Server -> iface (PreCreateServer W context) -> M W unit)
           (p : PreCreateGRPCPlugin W Plugin) (broker : GRPCBroker) (s : Server)
           (w w' : W),
       register s (Some (GRPCPreCreateServer_as_PreCreateServer context
                           {| GRPCPreCreateServer_Impl :=
                                PreCreateGRPCPlugin_Impl p |})) w
       = Returned tt w' ->
       PreCreateGRPCPlugin_GRPCServer register broker s (p, w)
       = Returned None (p, w'))
   /\
   (forall (New : ClientConn -> M W (iface (PreCreateClient W context)))
           (p : PreCreateGRPCPlugin W Plugin) (ctx : context)
           (broker : GRPCBroker) (c : ClientConn)
           (stub : iface (PreCreateClient W context)) (w w' : W),
       New c w = Returned stub w' ->
       PreCreateGRPCPlugin_GRPCClient New ctx broker c (p, w)
       = Returned (Some (Dyn_GRPCPreCreateClient
                           {| GRPCPreCreateClient_client := stub |}), None)
                  (p, w')))
  /\
  ((forall (register : Server -> iface (PostCreateServer W context) -> M W unit)
           (p : PostCreateGRPCPlugin W Plugin) (broker : GRPCBroker) (s : Server)
           (w w' : W),
       register s (Some (GRPCPostCreateServer_as_PostCreateServer context
                           {| GRPCPostCreateServer_Impl :=
                                PostCreateGRPCPlugin_Impl p |})) w
       = Returned tt w' ->
       PostCreateGRPCPlugin_GRPCServer register broker s (p, w)
       = Returned None (p, w'))
   /\
   (forall (New : ClientConn -> M W (iface (PostCreateClient W context)))
           (p : PostCreateGRPCPlugin W Plugin) (ctx : context)
           (broker : GRPCBroker) (c : ClientConn)
           (stub : iface (PostCreateClient W context)) (w w' : W),
       New c w = Returned stub w' ->
       PostCreateGRPCPlugin_GRPCClient New ctx broker c (p, w)
       = Returned (Some (Dyn_GRPCPostCreateClient
                           {| GRPCPostCreateClient_client := stub |}), None)
                  (p, w')))
  /\
  ((forall (register : Server -> iface (PreDeleteServer W context) -> M W unit)
           (p : PreDeleteGRPCPlugin W Plugin) (broker : GRPCBroker) (s : Server)
           (w w' : W),
       register s (Some (GRPCPreDeleteServer_as_PreDeleteServer context
                           {| GRPCPreDeleteServer_Impl :=
                                PreDeleteGRPCPlugin_Impl p |})) w
       = Returned tt w' ->
       PreDeleteGRPCPlugin_GRPCServer register broker s (p, w)
       = Returned None (p, w'))
   /\
   (forall (New : ClientConn -> M W (iface (PreDeleteClient W context)))
           (p : PreDeleteGRPCPlugin W Plugin) (ctx : context)
           (broker : GRPCBroker) (c : ClientConn)
           (stub : iface (PreDeleteClient W context)) (w w' : W),
       New c w = Returned stub w' ->
       PreDeleteGRPCPlugin_GRPCClient New ctx broker c (p, w)
       = Returned (Some (Dyn_GRPCPreDeleteClient
                           {| GRPCPreDeleteClient_client := stub |}), None)
                  (p, w')))
  /\
  ((forall (register : Server -> iface (PostDeleteServer W context) -> M W unit)
           (p : PostDeleteGRPCPlugin W Plugin) (broker : GRPCBroker) (s : Server)
           (w w' : W),
       register s (Some (GRPCPostDeleteServer_as_PostDeleteServer context
                           {| GRPCPostDeleteServer_Impl :=
                                PostDeleteGRPCPlugin_Impl p |})) w
       = Returned tt w' ->
       PostDeleteGRPCPlugin_GRPCServer register broker s (p, w)
       = Returned None (p, w'))
   /\
   (forall (New : ClientConn -> M W (iface (PostDeleteClient W context)))
           (p : PostDeleteGRPCPlugin W Plugin) (ctx : context)
           (broker : GRPCBroker) (c : ClientConn)
           (stub : iface (PostDeleteClient W context)) (w w' : W),
       New c w = Returned stub w' ->
       PostDeleteGRPCPlugin_GRPCClient New ctx broker c (p, w)
       = Returned (Some (Dyn_GRPCPostDeleteClient
                           {| GRPCPostDeleteClient_client := stub |}), None)
                  (p, w'))).
Proof.
  repeat split.
  all: try (intros register p broker s w w' Hregister; exec_binding;
            rewrite Hregister; reflexivity).
  all: intros New p ctx broker c stub w w' Hnew; exec_binding;
    rewrite Hnew; reflexivity.
Qed.

End Binding.

Lemma plugin_binding_never_fails_witness :
  ((PreCreateGRPCPlugin_GRPCServer
      (registering (Srv := PreCreateServer (list nat) unit)) tt 3
      ({| PreCreateGRPCPlugin_Plugin := @None unit; PreCreateGRPCPlugin_Impl := None |}, [1])
    = Returned None
        ({| PreCreateGRPCPlugin_Plugin := @None unit; PreCreateGRPCPlugin_Impl := None |}, [1; 3]))
   /\
   (PreCreateGRPCPlugin_GRPCClient (GRPCBroker := unit)
      (connecting (fun _ : nat => answering_PreCreate (None, Some "unavailable"))) tt tt 5
      ({| PreCreateGRPCPlugin_Plugin := @None unit; PreCreateGRPCPlugin_Impl := None |}, [1])
    = Returned
        (Some (Dyn_GRPCPreCreateClient
                 {| GRPCPreCreateClient_client := Some (answering_PreCreate (None, Some "unavailable")) |}),
         None)
        ({| PreCreateGRPCPlugin_Plugin := @None unit; PreCreateGRPCPlugin_Impl := None |}, [1])))
  /\
  ((PostCreateGRPCPlugin_GRPCServer
      (registering (Srv := PostCreateServer (list nat) unit)) tt 4
      ({| PostCreateGRPCPlugin_Plugin := @None unit; PostCreateGRPCPlugin_Impl := None |}, [1])
    = Returned None
        ({| PostCreateGRPCPlugin_Plugin := @None unit; PostCreateGRPCPlugin_Impl := None |}, [1; 4]))
   /\
   (PostCreateGRPCPlugin_GRPCClient (GRPCBroker := unit)
      (connecting (fun _ : nat => answering_PostCreate (None, Some "unavailable"))) tt tt 6
      ({| PostCreateGRPCPlugin_Plugin := @None unit; PostCreateGRPCPlugin_Impl := None |}, [1])
    = Returned
        (Some (Dyn_GRPCPostCreateClient
                 {| GRPCPostCreateClient_client := Some (answering_PostCreate (None, Some "unavailable")) |}),
         None)
        ({| PostCreateGRPCPlugin_Plugin := @None unit; PostCreateGRPCPlugin_Impl := None |}, [1])))
  /\
  ((PreDeleteGRPCPlugin_GRPCServer
      (registering (Srv := PreDeleteServer (list nat) unit)) tt 7
      ({| PreDeleteGRPCPlugin_Plugin := @None unit; PreDeleteGRPCPlugin_Impl := None |}, [1])
    = Returned None
        ({| PreDeleteGRPCPlugin_Plugin := @None unit; PreDeleteGRPCPlugin_Impl := None |}, [1; 7]))
   /\
   (PreDeleteGRPCPlugin_GRPCClient (GRPCBroker := unit)
      (connecting (fun _ : nat => answering_PreDelete (None, Some "unavailable"))) tt tt 8
      ({| PreDeleteGRPCPlugin_Plugin := @None unit; PreDeleteGRPCPlugin_Impl := None |}, [1])
    = Returned
        (Some (Dyn_GRPCPreDeleteClient
                 {| GRPCPreDeleteClient_client := Some (answering_PreDelete (None, Some "unavailable")) |}),
         None)
        ({| PreDeleteGRPCPlugin_Plugin := @None unit; PreDeleteGRPCPlugin_Impl := None |}, [1])))
  /\
  ((PostDeleteGRPCPlugin_GRPCServer
      (registering (Srv := PostDeleteServer (list nat) unit)) tt 9
      ({| PostDeleteGRPCPlugin_Plugin := @None unit; PostDeleteGRPCPlugin_Impl := None |}, [1])
    = Returned None
        ({| PostDeleteGRPCPlugin_Plugin := @None unit; PostDeleteGRPCPlugin_Impl := None |}, [1; 9]))
   /\
   (PostDeleteGRPCPlugin_GRPCClient (GRPCBroker := unit)
      (connecting (fun _ : nat => answering_PostDelete (None, Some "unavailable"))) tt tt 10
      ({| PostDeleteGRPCPlugin_Plugin := @None unit; PostDeleteGRPCPlugin_Impl := None |}, [1])
    = Returned
        (Some (Dyn_GRPCPostDeleteClient
                 {| GRPCPostDeleteClient_client := Some (answering_PostDelete (None, Some "unavailable")) |}),
         None)
        ({| PostDeleteGRPCPlugin_Plugin := @None unit; PostDeleteGRPCPlugin_Impl := None |}, [1]))).
Proof.
  destruct (@plugin_binding_never_fails (list nat) unit unit unit nat nat)
    as (HPreCreate & HPostCreate & HPreDelete & HPostDelete).
  split; [split|split; [split|split; [split|split]]].
  - apply (proj1 HPreCreate). reflexivity.
  - apply (proj2 HPreCreate). reflexivity.
  - apply (proj1 HPostCreate). reflexivity.
  - apply (proj2 HPostCreate). reflexivity.
  - apply (proj1 HPreDelete). reflexivity.
  - apply (proj2 HPreDelete). reflexivity.
  - apply (proj1 HPostDelete). reflexivity.
  - apply (proj2 HPostDelete). reflexivity.
Defined.

(** ** Boundary cases

    Concrete runs at the edges the statements above leave out. *)

(** A remote call that returns neither a response nor an error: the
    adapter reads [p.Failed] through a nil pointer and panics. *)
Example pre_client_nil_response_panics :
  GRPCPreCreateClient_Execute tt "prod-stack-1"
    ({| GRPCPreCreateClient_client := Some (answering_PreCreate (None, None)) |}, 0)
  = Panicked
      ({| GRPCPreCreateClient_client := Some (answering_PreCreate (None, None)) |}, 0).
Proof. reflexivity. Qed.

(** A response that comes with an error is not read. *)
Example pre_client_error_hides_response :
  GRPCPreDeleteClient_Execute tt "prod-stack-1"
    ({| GRPCPreDeleteClient_client :=
          Some (answering_PreDelete (Some {| Failed := true |}, Some "reset")) |}, 0)
  = Returned false
      ({| GRPCPreDeleteClient_client :=
            Some (answering_PreDelete (Some {| Failed := true |}, Some "reset")) |}, 0).
Proof. reflexivity. Qed.

(** An adapter without a stub panics. *)
Example post_client_nil_stub_panics :
  GRPCPostCreateClient_Execute (context := unit) tt "prod-stack-1"
    ({| GRPCPostCreateClient_client := None |}, 0)
  = Panicked ({| GRPCPostCreateClient_client := None |}, 0).
Proof. reflexivity. Qed.

(** A nil request makes the handler panic before the implementation is
    called: the log stays empty. *)
Example server_nil_request_panics :
  GRPCPreCreateServer_Execute tt None
    ({| GRPCPreCreateServer_Impl :=
          Some (traced_PreCreate {| PreCreate_Execute := vetoing |}) |},
     (["prod-stack-1"], []))
  = Panicked
      ({| GRPCPreCreateServer_Impl :=
            Some (traced_PreCreate {| PreCreate_Execute := vetoing |}) |},
       (["prod-stack-1"], [])).
Proof. reflexivity. Qed.

(** A panic of the implementation is not recovered by the handler, nor
    turned into an error. *)
Example server_propagates_panic :
  GRPCPostDeleteServer_Execute tt (Some {| Name := "prod-stack-1" |})
    ({| GRPCPostDeleteServer_Impl :=
          Some {| PostDelete_Execute := fun _ => panic |} |}, 0)
  = Panicked
      ({| GRPCPostDeleteServer_Impl :=
            Some {| PostDelete_Execute := fun _ => panic |} |}, 0).
Proof. reflexivity. Qed.

(** The veto of a local implementation, seen through both adapters. *)
Example veto_through_adapters :
  let client :=
    GRPCPreDeleteClient_as_PreDelete tt
      {| GRPCPreDeleteClient_client :=
           Some (loopback_PreDelete tt
                   (GRPCPreDeleteServer_as_PreDeleteServer unit
                      {| GRPCPreDeleteServer_Impl :=
                           Some {| PreDelete_Execute := vetoing |} |})) |} in
  PreDelete_Execute client "prod-stack-1" ["prod-stack-1"]
  = Returned true ["prod-stack-1"]
  /\ PreDelete_Execute client "dev-stack" ["prod-stack-1"]
     = Returned false ["prod-stack-1"]
  /\ PreDelete_Execute client non_ascii_name [non_ascii_name]
     = Returned true [non_ascii_name].
Proof. repeat split. Qed.

(** A registration that panics: [GRPCServer] returns nothing. *)
Example GRPCServer_registration_panics :
  PostCreateGRPCPlugin_GRPCServer (W := nat) (context := unit)
    (fun (_ : nat) _ => panic) tt 3
    ({| PostCreateGRPCPlugin_Plugin := @None unit;
        PostCreateGRPCPlugin_Impl := None |}, 0)
  = Panicked
      ({| PostCreateGRPCPlugin_Plugin := @None unit;
          PostCreateGRPCPlugin_Impl := None |}, 0).
Proof. reflexivity. Qed.

(** [keeps_receiver] tells methods apart: one that assigns the receiver
    does not keep it. *)
Example assign_changes_receiver :
  ~ keeps_receiver (W := unit) (assign 1).
Proof. intros Hkeep. specialize (Hkeep 0 tt). discriminate Hkeep. Qed.

(** ** The client adapters: panics, vetoes and remote calls *)

Section ClientAdaptersMore.

Variable W : Type.
Variable context : Type.
Variable Background : context.



(** X3.  A veto seen by the caller is a veto of the remote side: when
    [Execute] of a PreCreate or PreDelete client adapter returns [true], the
    remote call returned a response whose [Failed] is [true], with a nil
    error. *)
Theorem pre_client_Execute_true_is_remote_veto :
  (forall (c : PreCreateClient W context) (key : string) (w : W)
          (s' : GRPCPreCreateClient W context * W),
      GRPCPreCreateClient_Execute Background key
        ({| GRPCPreCreateClient_client := Some c |}, w) = Returned true s' ->
      PreCreateClient_Execute c Background (Some {| Name := key |}) w
      = Returned (Some {| Failed := true |}, None) (snd s'))
  /\
  (forall (c : PreDeleteClient W context) (key : string) (w : W)
          (s' : GRPCPreDeleteClient W context * W),
      GRPCPreDeleteClient_Execute Background key
        ({| GRPCPreDeleteClient_client := Some c |}, w) = Returned true s' ->
      PreDeleteClient_Execute c Background (Some {| Name := key |}) w
      = Returned (Some {| Failed := true |}, None) (snd s')).
Proof.
  split; intros c key w s' Hexec.
  - rewrite GRPCPreCreateClient_Execute_run in Hexec.
    destruct (PreCreateClient_Execute c Background _ w) as [[[[f]|] [e|]] w'|w'];
      try discriminate Hexec.
    cbn in Hexec. injection Hexec as -> <-. reflexivity.
  - rewrite GRPCPreDeleteClient_Execute_run in Hexec.
    destruct (PreDeleteClient_Execute c Background _ w) as [[[[f]|] [e|]] w'|w'];
      try discriminate Hexec.
    cbn in Hexec. injection Hexec as -> <-. reflexivity.
Qed.

End ClientAdaptersMore.



Lemma pre_client_Execute_true_is_remote_veto_witness :
  (PreCreateClient_Execute
     (loopback_PreCreate tt
        (GRPCPreCreateServer_as_PreCreateServer unit
           {| GRPCPreCreateServer_Impl := Some {| PreCreate_Execute := vetoing |} |}))
     tt (Some {| Name := "prod-stack-1" |}) ["prod-stack-1"]
   = Returned (Some {| Failed := true |}, None) ["prod-stack-1"])
  /\
  (PreDeleteClient_Execute
     (answering_PreDelete (Some {| Failed := true |}, None))
     tt (Some {| Name := "" |}) 4
   = Returned (Some {| Failed := true |}, None) 4).
Proof.
  split.
  - apply (proj1 (@pre_client_Execute_true_is_remote_veto (list string) unit tt)
             _ "prod-stack-1" ["prod-stack-1"]
             ({| GRPCPreCreateClient_client :=
                   Some (loopback_PreCreate tt
                           (GRPCPreCreateServer_as_PreCreateServer unit
                              {| GRPCPreCreateServer_Impl :=
                                   Some {| PreCreate_Execute := vetoing |} |})) |},
              ["prod-stack-1"])).
    reflexivity.
  - apply (proj2 (@pre_client_Execute_true_is_remote_veto nat unit tt)
             _ "" 4
             ({| GRPCPreDeleteClient_client :=
                   Some (answering_PreDelete (Some {| Failed := true |}, None)) |},
              4)).
    reflexivity.
Defined.

Section RemoteCalls.

Variable W : Type.
Variable context : Type.
Variable Background : context.

Lemma recorded_run {Resp : Type}
    (f : context -> ptr Stack -> M W (ptr Resp * error))
    (ctx : context) (req : ptr Stack) (w : W) (log : list (context * ptr Stack)) :
  recorded f ctx req (w, log) =
  match f ctx req w with
  | Returned a w' => Returned a (w', (log ++ [(ctx, req)])%list)
  | Panicked w' => Panicked (w', (log ++ [(ctx, req)])%list)
  end.
Proof. reflexivity. Qed.

(** X4.  Each [Execute] of a client adapter makes exactly one remote call,
    under the background context and with a request whose [Name] is the
    identifier it was given: the log of the calls the stub received grows by
    that one entry, however the remote call ends.  There is no retry and no
    deadline of the adapter's own. *)
Theorem client_Execute_calls_stub_once :
  (forall (c : PreCreateClient W context) (key : string) (w : W)
          (log : list (context * ptr Stack)),
      snd (snd (state_of
        (GRPCPreCreateClient_Execute Background key
           ({| GRPCPreCreateClient_client := Some (recorded_PreCreate c) |},
            (w, log)))))
      = (log ++ [(Background, Some {| Name := key |})])%list)
  /\
  (forall (c : PostCreateClient W context) (stackname : string) (w : W)
          (log : list (context * ptr Stack)),
      snd (snd (state_of
        (GRPCPostCreateClient_Execute Background stackname
           ({| GRPCPostCreateClient_client := Some (recorded_PostCreate c) |},
            (w, log)))))
      = (log ++ [(Background, Some {| Name := stackname |})])%list)
  /\
  (forall (c : PreDeleteClient W context) (key : string) (w : W)
          (log : list (context * ptr Stack)),
      snd (snd (state_of
        (GRPCPreDeleteClient_Execute Background key
           ({| GRPCPreDeleteClient_client := Some (recorded_PreDelete c) |},
            (w, log)))))
      = (log ++ [(Background, Some {| Name := key |})])%list)
  /\
  (forall (c : PostDeleteClient W context) (stackname : string) (w : W)
          (log : list (context * ptr Stack)),
      snd (snd (state_of
        (GRPCPostDeleteClient_Execute Background stackname
           ({| GRPCPostDeleteClient_client := Some (recorded_PostDelete c) |},
            (w, log)))))
      = (log ++ [(Background, Some {| Name := stackname |})])%list).
Proof.
  repeat split; intros c key w log.
  - rewrite GRPCPreCreateClient_Execute_run.
    cbn [PreCreateClient_Execute recorded_PreCreate]. rewrite recorded_run.
    destruct (PreCreateClient_Execute c Background _ w) as [[[r|] [e|]] w'|w'];
      reflexivity.
  - rewrite GRPCPostCreateClient_Execute_run.
    cbn [PostCreateClient_Execute recorded_PostCreate]. rewrite recorded_run.
    destruct (PostCreateClient_Execute c Background _ w); reflexivity.
  - rewrite GRPCPreDeleteClient_Execute_run.
    cbn [PreDeleteClient_Execute recorded_PreDelete]. rewrite recorded_run.
    destruct (PreDeleteClient_Execute c Background _ w) as [[[r|] [e|]] w'|w'];
      reflexivity.
  - rewrite GRPCPostDeleteClient_Execute_run.
    cbn [PostDeleteClient_Execute recorded_PostDelete]. rewrite recorded_run.
    destruct (PostDeleteClient_Execute c Background _ w); reflexivity.
Qed.

End RemoteCalls.

(** ** The server adapters: panics, nil inputs and the context *)

Section ServerAdaptersMore.

Variable W : Type.
Variable context : Type.

(** X6.  A nil request, or an adapter that wraps no implementation, makes
    the handler panic with the state untouched: on a nil request the
    implementation, whichever it is, is not called. *)
Theorem server_Execute_nil_leaves_state :
  ((forall (m : GRPCPreCreateServer W) (ctx : context) (w : W),
       GRPCPreCreateServer_Execute ctx None (m, w) = Panicked (m, w))
   /\
   (forall (ctx : context) (req : ptr Stack) (w : W),
       GRPCPreCreateServer_Execute ctx req ({| GRPCPreCreateServer_Impl := None |}, w)
       = Panicked ({| GRPCPreCreateServer_Impl := None |}, w)))
  /\
  ((forall (m : GRPCPostCreateServer W) (ctx : context) (w : W),
       GRPCPostCreateServer_Execute ctx None (m, w) = Panicked (m, w))
   /\
   (forall (ctx : context) (req : ptr Stack) (w : W),
       GRPCPostCreateServer_Execute ctx req ({| GRPCPostCreateServer_Impl := None |}, w)
       = Panicked ({| GRPCPostCreateServer_Impl := None |}, w)))
  /\
  ((forall (m : GRPCPreDeleteServer W) (ctx : context) (w : W),
       GRPCPreDeleteServer_Execute ctx None (m, w) = Panicked (m, w))
   /\
   (forall (ctx : context) (req : ptr Stack) (w : W),
       GRPCPreDeleteServer_Execute ctx req ({| GRPCPreDeleteServer_Impl := None |}, w)
       = Panicked ({| GRPCPreDeleteServer_Impl := None |}, w)))
  /\
  ((forall (m : GRPCPostDeleteServer W) (ctx : context) (w : W),
       GRPCPostDeleteServer_Execute ctx None (m, w) = Panicked (m, w))
   /\
   (forall (ctx : context) (req : ptr Stack) (w : W),
       GRPCPostDeleteServer_Execute ctx req ({| GRPCPostDeleteServer_Impl := None |}, w)
       = Panicked ({| GRPCPostDeleteServer_Impl := None |}, w))).
Proof.
  repeat split; intros; try reflexivity; destruct req; reflexivity.
Qed.

(** X7.  The handlers do not use the context of the remote call: whatever
    it carries, the implementation is called the same way and the same
    response is returned. *)
Theorem server_Execute_ignores_context :
  (forall (ctx1 ctx2 : context) (req : ptr Stack) (s : GRPCPreCreateServer W * W),
      GRPCPreCreateServer_Execute ctx1 req s = GRPCPreCreateServer_Execute ctx2 req s)
  /\
  (forall (ctx1 ctx2 : context) (req : ptr Stack) (s : GRPCPostCreateServer W * W),
      GRPCPostCreateServer_Execute ctx1 req s = GRPCPostCreateServer_Execute ctx2 req s)
  /\
  (forall (ctx1 ctx2 : context) (req : ptr Stack) (s : GRPCPreDeleteServer W * W),
      GRPCPreDeleteServer_Execute ctx1 req s = GRPCPreDeleteServer_Execute ctx2 req s)
  /\
  (forall (ctx1 ctx2 : context) (req : ptr Stack) (s : GRPCPostDeleteServer W * W),
      GRPCPostDeleteServer_Execute ctx1 req s = GRPCPostDeleteServer_Execute ctx2 req s).
Proof.
  repeat split; intros; reflexivity.
Qed.

(** X8.  A handler leaves the adapter's struct, hence the implementation it
    wraps, as it was, however the call ends. *)
Theorem server_Execute_keeps_receiver :
  (forall (ctx : context) (req : ptr Stack),
      keeps_receiver (GRPCPreCreateServer_Execute (W := W) ctx req))
  /\
  (forall (ctx : context) (req : ptr Stack),
      keeps_receiver (GRPCPostCreateServer_Execute (W := W) ctx req))
  /\
  (forall (ctx : context) (req : ptr Stack),
      keeps_receiver (GRPCPreDeleteServer_Execute (W := W) ctx req))
  /\
  (forall (ctx : context) (req : ptr Stack),
      keeps_receiver (GRPCPostDeleteServer_Execute (W := W) ctx req)).
Proof.
  repeat split; intros ctx [rq|] [[impl|]] w; try reflexivity; exec.
  - destruct (PreCreate_Execute impl (Name rq) w); reflexivity.
  - destruct (PostCreate_Execute impl (Name rq) w); reflexivity.
  - destruct (PreDelete_Execute impl (Name rq) w); reflexivity.
  - destruct (PostDelete_Execute impl (Name rq) w); reflexivity.
Qed.

End ServerAdaptersMore.


(** ** Every hook over a faithful transport *)

Section CompositionMore.

Variable W : Type.
Variable context : Type.
Variable Background : context.

(** X9.  Over a faithful transport, the PostCreate, PreDelete and
    PostDelete client adapters in front of the server adapter of a local
    implementation are, as values of the hook's interface, functions equal
    to the implementation: the same outcome, panics included, from every
    identifier and state. *)
Theorem client_refines_Impl :
  (forall (impl : PostCreate W) (c : PostCreateClient W context),
      faithful (PostCreateClient_Execute c)
               (PostCreateServer_Execute
                  (GRPCPostCreateServer_as_PostCreateServer context
                     {| GRPCPostCreateServer_Impl := Some impl |})) ->
      forall (stackname : string) (w : W),
        PostCreate_Execute
          (GRPCPostCreateClient_as_PostCreate Background
             {| GRPCPostCreateClient_client := Some c |}) stackname w
        = PostCreate_Execute impl stackname w)
  /\
  (forall (impl : PreDelete W) (c : PreDeleteClient W context),
      faithful (PreDeleteClient_Execute c)
               (PreDeleteServer_Execute
                  (GRPCPreDeleteServer_as_PreDeleteServer context
                     {| GRPCPreDeleteServer_Impl := Some impl |})) ->
      forall (key : string) (w : W),
        PreDelete_Execute
          (GRPCPreDeleteClient_as_PreDelete Background
             {| GRPCPreDeleteClient_client := Some c |}) key w
        = PreDelete_Execute impl key w)
  /\
  (forall (impl : PostDelete W) (c : PostDeleteClient W context),
      faithful (PostDeleteClient_Execute c)
               (PostDeleteServer_Execute
                  (GRPCPostDeleteServer_as_PostDeleteServer context
                     {| GRPCPostDeleteServer_Impl := Some impl |})) ->
      forall (stackname : string) (w : W),
        PostDelete_Execute
          (GRPCPostDeleteClient_as_PostDelete Background
             {| GRPCPostDeleteClient_client := Some c |}) stackname w
        = PostDelete_Execute impl stackname w).
Proof.
  repeat split; intros impl c Hfaithful key w.
  - cbn [PostCreate_Execute GRPCPostCreateClient_as_PostCreate].
    rewrite call_run, (@PostCreate_over_transport _ _ Background _ _ key w Hfaithful).
    destruct (PostCreate_Execute impl key w) as [[] w'|w']; reflexivity.
  - cbn [PreDelete_Execute GRPCPreDeleteClient_as_PreDelete].
    rewrite call_run, (@PreDelete_over_transport _ _ Background _ _ key w Hfaithful).
    destruct (PreDelete_Execute impl key w); reflexivity.
  - cbn [PostDelete_Execute GRPCPostDeleteClient_as_PostDelete].
    rewrite call_run, (@PostDelete_over_transport _ _ Background _ _ key w Hfaithful).
    destruct (PostDelete_Execute impl key w) as [[] w'|w']; reflexivity.
Qed.

(** Calls in a row of a method that logs its argument and returns. *)
Lemma for_each_logs {R A : Type}
    (f : string -> Method (W * list string) R A) (r : R) :
  (forall (key : string) (w : W) (log : list string),
      exists (a : A) (w' : W),
        f key (r, (w, log)) = Returned a (r, (w', (log ++ [key])%list))) ->
  forall (keys : list string) (w : W) (log : list string),
    exists w' : W,
      for_each f keys (r, (w, log)) = Returned tt (r, (w', (log ++ keys)%list)).
Proof.
  intros Hf keys. induction keys as [|key rest IH]; intros w log.
  - exists w. rewrite app_nil_r. reflexivity.
  - destruct (Hf key w log) as (a & w1 & Hcall).
    destruct (IH w1 (log ++ [key])%list) as (w2 & Hrest).
    exists w2. cbn [for_each bind Monad_M]. rewrite Hcall, Hrest.
    rewrite <- app_assoc. reflexivity.
Qed.

(** X10.  Calls are delivered one by one and in order: when a caller runs a
    client adapter's [Execute] for each identifier of a list, over a
    faithful transport to an implementation that returns, the
    implementation has received exactly those identifiers, in the order of
    the list. *)
Theorem calls_delivered_in_order :
  (forall (impl : PreCreate W) (c : PreCreateClient (W * list string) context),
      faithful (PreCreateClient_Execute c)
               (PreCreateServer_Execute
                  (GRPCPreCreateServer_as_PreCreateServer context
                     {| GRPCPreCreateServer_Impl := Some (traced_PreCreate impl) |})) ->
      (forall key w, exists res w', PreCreate_Execute impl key w = Returned res w') ->
      forall (keys : list string) (w : W) (log : list string),
        exists w' : W,
          for_each (GRPCPreCreateClient_Execute Background) keys
            ({| GRPCPreCreateClient_client := Some c |}, (w, log))
          = Returned tt ({| GRPCPreCreateClient_client := Some c |},
                         (w', (log ++ keys)%list)))
  /\
  (forall (impl : PostCreate W) (c : PostCreateClient (W * list string) context),
      faithful (PostCreateClient_Execute c)
               (PostCreateServer_Execute
                  (GRPCPostCreateServer_as_PostCreateServer context
                     {| GRPCPostCreateServer_Impl := Some (traced_PostCreate impl) |})) ->
      (forall key w, exists res w', PostCreate_Execute impl key w = Returned res w') ->
      forall (keys : list string) (w : W) (log : list string),
        exists w' : W,
          for_each (GRPCPostCreateClient_Execute Background) keys
            ({| GRPCPostCreateClient_client := Some c |}, (w, log))
          = Returned tt ({| GRPCPostCreateClient_client := Some c |},
                         (w', (log ++ keys)%list)))
  /\
  (forall (impl : PreDelete W) (c : PreDeleteClient (W * list string) context),
      faithful (PreDeleteClient_Execute c)
               (PreDeleteServer_Execute
                  (GRPCPreDeleteServer_as_PreDeleteServer context
                     {| GRPCPreDeleteServer_Impl := Some (traced_PreDelete impl) |})) ->
      (forall key w, exists res w', PreDelete_Execute impl key w = Returned res w') ->
      forall (keys : list string) (w : W) (log : list string),
        exists w' : W,
          for_each (GRPCPreDeleteClient_Execute Background) keys
            ({| GRPCPreDeleteClient_client := Some c |}, (w, log))
          = Returned tt ({| GRPCPreDeleteClient_client := Some c |},
                         (w', (log ++ keys)%list)))
  /\
  (forall (impl : PostDelete W) (c : PostDeleteClient (W * list string) context),
      faithful (PostDeleteClient_Execute c)
               (PostDeleteServer_Execute
                  (GRPCPostDeleteServer_as_PostDeleteServer context
                     {| GRPCPostDeleteServer_Impl := Some (traced_PostDelete impl) |})) ->
      (forall key w, exists res w', PostDelete_Execute impl key w = Returned res w') ->
      forall (keys : list string) (w : W) (log : list string),
        exists w' : W,
          for_each (GRPCPostDeleteClient_Execute Background) keys
            ({| GRPCPostDeleteClient_client := Some c |}, (w, log))
          = Returned tt ({| GRPCPostDeleteClient_client := Some c |},
                         (w', (log ++ keys)%list))).
Proof.
  repeat split; intros impl c Hfaithful Hreturns; apply for_each_logs;
    intros key w log; destruct (Hreturns key w) as (res & w' & Himpl).
  - exists res, w'.
    rewrite (@PreCreate_over_transport _ _ Background _ _ key (w, log) Hfaithful).
    cbn [PreCreate_Execute traced_PreCreate]. rewrite traced_run, Himpl. reflexivity.
  - exists tt, w'.
    rewrite (@PostCreate_over_transport _ _ Background _ _ key (w, log) Hfaithful).
    cbn [PostCreate_Execute traced_PostCreate]. rewrite traced_run, Himpl. reflexivity.
  - exists res, w'.
    rewrite (@PreDelete_over_transport _ _ Background _ _ key (w, log) Hfaithful).
    cbn [PreDelete_Execute traced_PreDelete]. rewrite traced_run, Himpl. reflexivity.
  - exists tt, w'.
    rewrite (@PostDelete_over_transport _ _ Background _ _ key (w, log) Hfaithful).
    cbn [PostDelete_Execute traced_PostDelete]. rewrite traced_run, Himpl. reflexivity.
Qed.

End CompositionMore.

Lemma client_refines_Impl_witness :
  (PostCreate_Execute
     (GRPCPostCreateClient_as_PostCreate tt
        {| GRPCPostCreateClient_client :=
             Some (loopback_PostCreate tt
                     (GRPCPostCreateServer_as_PostCreateServer unit
                        {| GRPCPostCreateServer_Impl :=
                             Some {| PostCreate_Execute := counting |} |})) |})
     "prod-stack-1" 0
   = PostCreate_Execute {| PostCreate_Execute := counting |} "prod-stack-1" 0)
  /\
  (PreDelete_Execute
     (GRPCPreDeleteClient_as_PreDelete tt
        {| GRPCPreDeleteClient_client :=
             Some (loopback_PreDelete tt
                     (GRPCPreDeleteServer_as_PreDeleteServer unit
                        {| GRPCPreDeleteServer_Impl :=
                             Some {| PreDelete_Execute := vetoing |} |})) |})
     "prod-stack-1" ["prod-stack-1"]
   = PreDelete_Execute {| PreDelete_Execute := vetoing |}
       "prod-stack-1" ["prod-stack-1"])
  /\
  (PostDelete_Execute
     (GRPCPostDeleteClient_as_PostDelete tt
        {| GRPCPostDeleteClient_client :=
             Some (loopback_PostDelete tt
                     (GRPCPostDeleteServer_as_PostDeleteServer unit
                        {| GRPCPostDeleteServer_Impl :=
                             Some {| PostDelete_Execute := fun _ => panic |} |})) |})
     "" 0
   = PostDelete_Execute {| PostDelete_Execute := fun _ => panic |} "" 0).
Proof.
  destruct (@client_refines_Impl nat unit tt) as (Hpostcreate & _ & Hpostdelete).
  destruct (@client_refines_Impl (list string) unit tt) as (_ & Hpredelete & _).
  split; [|split].
  - apply Hpostcreate. intros ctx req w. exists tt. reflexivity.
  - apply Hpredelete. intros ctx req w. exists tt. reflexivity.
  - apply Hpostdelete. intros ctx req w. exists tt. reflexivity.
Defined.

Lemma calls_delivered_in_order_witness :
  (exists w' : list string,
      for_each (GRPCPreCreateClient_Execute tt) ["dev-stack"; ""; non_ascii_name]
        ({| GRPCPreCreateClient_client :=
               Some (loopback_PreCreate tt
                       (GRPCPreCreateServer_as_PreCreateServer unit
                          {| GRPCPreCreateServer_Impl :=
                               Some (traced_PreCreate
                                       {| PreCreate_Execute := vetoing |}) |})) |},
         (["prod-stack-1"], ["prod-stack-1"]))
      = Returned tt
          ({| GRPCPreCreateClient_client :=
               Some (loopback_PreCreate tt
                       (GRPCPreCreateServer_as_PreCreateServer unit
                          {| GRPCPreCreateServer_Impl :=
                               Some (traced_PreCreate
                                       {| PreCreate_Execute := vetoing |}) |})) |},
           (w', ["prod-stack-1"; "dev-stack"; ""; non_ascii_name])))
  /\
  (exists w' : nat,
      for_each (GRPCPostCreateClient_Execute tt) ["dev-stack"; ""; non_ascii_name]
        ({| GRPCPostCreateClient_client :=
               Some (loopback_PostCreate tt
                       (GRPCPostCreateServer_as_PostCreateServer unit
                          {| GRPCPostCreateServer_Impl :=
                               Some (traced_PostCreate
                                       {| PostCreate_Execute := counting |}) |})) |},
         (0, ["prod-stack-1"]))
      = Returned tt
          ({| GRPCPostCreateClient_client :=
               Some (loopback_PostCreate tt
                       (GRPCPostCreateServer_as_PostCreateServer unit
                          {| GRPCPostCreateServer_Impl :=
                               Some (traced_PostCreate
                                       {| PostCreate_Execute := counting |}) |})) |},
           (w', ["prod-stack-1"; "dev-stack"; ""; non_ascii_name])))
  /\
  (exists w' : list string,
      for_each (GRPCPreDeleteClient_Execute tt) ["dev-stack"; ""; non_ascii_name]
        ({| GRPCPreDeleteClient_client :=
               Some (loopback_PreDelete tt
                       (GRPCPreDeleteServer_as_PreDeleteServer unit
                          {| GRPCPreDeleteServer_Impl :=
                               Some (traced_PreDelete
                                       {| PreDelete_Execute := vetoing |}) |})) |},
         (["prod-stack-1"], ["prod-stack-1"]))
      = Returned tt
          ({| GRPCPreDeleteClient_client :=
               Some (loopback_PreDelete tt
                       (GRPCPreDeleteServer_as_PreDeleteServer unit
                          {| GRPCPreDeleteServer_Impl :=
                               Some (traced_PreDelete
                                       {| PreDelete_Execute := vetoing |}) |})) |},
           (w', ["prod-stack-1"; "dev-stack"; ""; non_ascii_name])))
  /\
  (exists w' : nat,
      for_each (GRPCPostDeleteClient_Execute tt) ["dev-stack"; ""; non_ascii_name]
        ({| GRPCPostDeleteClient_client :=
               Some (loopback_PostDelete tt
                       (GRPCPostDeleteServer_as_PostDeleteServer unit
                          {| GRPCPostDeleteServer_Impl :=
                               Some (traced_PostDelete
                                       {| PostDelete_Execute := counting |}) |})) |},
         (0, ["prod-stack-1"]))
      = Returned tt
          ({| GRPCPostDeleteClient_client :=
               Some (loopback_PostDelete tt
                       (GRPCPostDeleteServer_as_PostDeleteServer unit
                          {| GRPCPostDeleteServer_Impl :=
                               Some (traced_PostDelete
                                       {| PostDelete_Execute := counting |}) |})) |},
           (w', ["prod-stack-1"; "dev-stack"; ""; non_ascii_name]))).
Proof.
  destruct (@calls_delivered_in_order (list string) unit tt)
    as (HPreCreate & _ & HPreDelete & _).
  destruct (@calls_delivered_in_order nat unit tt)
    as (_ & HPostCreate & _ & HPostDelete).
  split; [|split; [|split]].
  - apply (HPreCreate {| PreCreate_Execute := vetoing |}).
    + intros ctx req w. exists tt. reflexivity.
    + intros key w. eexists. eexists. reflexivity.
  - apply (HPostCreate {| PostCreate_Execute := counting |}).
    + intros ctx req w. exists tt. reflexivity.
    + intros key w. eexists. eexists. reflexivity.
  - apply (HPreDelete {| PreDelete_Execute := vetoing |}).
    + intros ctx req w. exists tt. reflexivity.
    + intros key w. eexists. eexists. reflexivity.
  - apply (HPostDelete {| PostDelete_Execute := counting |}).
    + intros ctx req w. exists tt. reflexivity.
    + intros key w. eexists. eexists. reflexivity.
Defined.

(** ** Transport binding: handles, panics and wiring *)

Section BindingMore.

Variable W : Type.
Variable context : Type.
Variable Background : context.
Variable Plugin : Type.
Variable GRPCBroker : Type.
Variable Server : Type.
Variable ClientConn : Type.

(** X11.  The binding methods do not use the broker; [GRPCClient] uses
    neither its context nor the plugin struct it is called on: a plugin
    struct without [Impl] yields the same client adapter as any other. *)
Theorem plugin_binding_ignores_handles :
  ((forall (register : Server -> iface (PreCreateServer W context) -> M W unit)
           (b1 b2 : GRPCBroker) (s : Server)
           (st : PreCreateGRPCPlugin W Plugin * W),
       PreCreateGRPCPlugin_GRPCServer register b1 s st
       = PreCreateGRPCPlugin_GRPCServer register b2 s st)
   /\
   (forall (New : ClientConn -> M W (iface (PreCreateClient W context)))
           (p1 p2 : PreCreateGRPCPlugin W Plugin) (ctx1 ctx2 : context)
           (b1 b2 : GRPCBroker) (c : ClientConn) (w : W),
       call p1 (PreCreateGRPCPlugin_GRPCClient New ctx1 b1 c) w
       = call p2 (PreCreateGRPCPlugin_GRPCClient New ctx2 b2 c) w))
  /\
  ((forall (register : Server -> iface (PostCreateServer W context) -> M W unit)
           (b1 b2 : GRPCBroker) (s : Server)
           (st : PostCreateGRPCPlugin W Plugin * W),
       PostCreateGRPCPlugin_GRPCServer register b1 s st
       = PostCreateGRPCPlugin_GRPCServer register b2 s st)
   /\
   (forall (New : ClientConn -> M W (iface (PostCreateClient W context)))
           (p1 p2 : PostCreateGRPCPlugin W Plugin) (ctx1 ctx2 : context)
           (b1 b2 : GRPCBroker) (c : ClientConn) (w : W),
       call p1 (PostCreateGRPCPlugin_GRPCClient New ctx1 b1 c) w
       = call p2 (PostCreateGRPCPlugin_GRPCClient New ctx2 b2 c) w))
  /\
  ((forall (register : Server -> iface (PreDeleteServer W context) -> M W unit)
           (b1 b2 : GRPCBroker) (s : Server)
           (st : PreDeleteGRPCPlugin W Plugin * W),
       PreDeleteGRPCPlugin_GRPCServer register b1 s st
       = PreDeleteGRPCPlugin_GRPCServer register b2 s st)
   /\
   (forall (New : ClientConn -> M W (iface (PreDeleteClient W context)))
           (p1 p2 : PreDeleteGRPCPlugin W Plugin) (ctx1 ctx2 : context)
           (b1 b2 : GRPCBroker) (c : ClientConn) (w : W),
       call p1 (PreDeleteGRPCPlugin_GRPCClient New ctx1 b1 c) w
       = call p2 (PreDeleteGRPCPlugin_GRPCClient New ctx2 b2 c) w))
  /\
  ((forall (register : Server -> iface (PostDeleteServer W context) -> M W unit)
           (b1 b2 : GRPCBroker) (s : Server)
           (st : PostDeleteGRPCPlugin W Plugin * W),
       PostDeleteGRPCPlugin_GRPCServer register b1 s st
       = PostDeleteGRPCPlugin_GRPCServer register b2 s st)
   /\
   (forall (New : ClientConn -> M W (iface (PostDeleteClient W context)))
           (p1 p2 : PostDeleteGRPCPlugin W Plugin) (ctx1 ctx2 : context)
           (b1 b2 : GRPCBroker) (c : ClientConn) (w : W),
       call p1 (PostDeleteGRPCPlugin_GRPCClient New ctx1 b1 c) w
       = call p2 (PostDeleteGRPCPlugin_GRPCClient New ctx2 b2 c) w)).
Proof.
  repeat split; intros; try reflexivity.
  all: rewrite !call_run; exec_binding; destruct (New c w); reflexivity.
Qed.


(** X13.  The binding methods leave the plugin struct as it was, however
    they end: serving or dispensing a plugin does not change its [Impl]. *)
Theorem plugin_binding_keeps_receiver :
  ((forall (register : Server -> iface (PreCreateServer W context) -> M W unit)
           (broker : GRPCBroker) (s : Server),
       keeps_receiver (PreCreateGRPCPlugin_GRPCServer (Plugin := Plugin) register broker s))
   /\
   (forall (New : ClientConn -> M W (iface (PreCreateClient W context)))
           (ctx : context) (broker : GRPCBroker) (c : ClientConn),
       keeps_receiver
         (PreCreateGRPCPlugin_GRPCClient (Plugin := Plugin) New ctx broker c)))
  /\
  ((forall (register : Server -> iface (PostCreateServer W context) -> M W unit)
           (broker : GRPCBroker) (s : Server),
       keeps_receiver (PostCreateGRPCPlugin_GRPCServer (Plugin := Plugin) register broker s))
   /\
   (forall (New : ClientConn -> M W (iface (PostCreateClient W context)))
           (ctx : context) (broker : GRPCBroker) (c : ClientConn),
       keeps_receiver
         (PostCreateGRPCPlugin_GRPCClient (Plugin := Plugin) New ctx broker c)))
  /\
  ((forall (register : Server -> iface (PreDeleteServer W context) -> M W unit)
           (broker : GRPCBroker) (s : Server),
       keeps_receiver (PreDeleteGRPCPlugin_GRPCServer (Plugin := Plugin) register broker s))
   /\
   (forall (New : ClientConn -> M W (iface (PreDeleteClient W context)))
           (ctx : context) (broker : GRPCBroker) (c : ClientConn),
       keeps_receiver
         (PreDeleteGRPCPlugin_GRPCClient (Plugin := Plugin) New ctx broker c)))
  /\
  ((forall (register : Server -> iface (PostDeleteServer W context) -> M W unit)
           (broker : GRPCBroker) (s : Server),
       keeps_receiver (PostDeleteGRPCPlugin_GRPCServer (Plugin := Plugin) register broker s))
   /\
   (forall (New : ClientConn -> M W (iface (PostDeleteClient W context)))
           (ctx : context) (broker : GRPCBroker) (c : ClientConn),
       keeps_receiver
         (PostDeleteGRPCPlugin_GRPCClient (Plugin := Plugin) New ctx broker c))).
Proof.
  repeat split; intros.
  all: intros p w; exec_binding.
  all: match goal with
       | |- context [match ?call with _ => _ end] => destruct call; reflexivity
       end.
Qed.

(** X14.  [GRPCServer] does not check the plugin's [Impl]: on a plugin
    struct without one it still registers a server adapter and returns a nil
    error, and the handler of the adapter it registered panics on every
    request. *)
Theorem GRPCServer_registers_nil_Impl :
  (forall (register : Server -> iface (PreCreateServer W context) -> M W unit)
          (p : PreCreateGRPCPlugin W Plugin) (broker : GRPCBroker) (s : Server)
          (w w' : W),
      PreCreateGRPCPlugin_Impl p = None ->
      register s (Some (GRPCPreCreateServer_as_PreCreateServer context
                          {| GRPCPreCreateServer_Impl := None |})) w
      = Returned tt w' ->
      PreCreateGRPCPlugin_GRPCServer register broker s (p, w) = Returned None (p, w')
      /\ (forall (ctx : context) (req : ptr Stack) (w0 : W),
            PreCreateServer_Execute
              (GRPCPreCreateServer_as_PreCreateServer context
                 {| GRPCPreCreateServer_Impl := None |}) ctx req w0
            = Panicked w0))
  /\
  (forall (register : Server -> iface (PostCreateServer W context) -> M W unit)
          (p : PostCreateGRPCPlugin W Plugin) (broker : GRPCBroker) (s : Server)
          (w w' : W),
      PostCreateGRPCPlugin_Impl p = None ->
      register s (Some (GRPCPostCreateServer_as_PostCreateServer context
                          {| GRPCPostCreateServer_Impl := None |})) w
      = Returned tt w' ->
      PostCreateGRPCPlugin_GRPCServer register broker s (p, w) = Returned None (p, w')
      /\ (forall (ctx : context) (req : ptr Stack) (w0 : W),
            PostCreateServer_Execute
              (GRPCPostCreateServer_as_PostCreateServer context
                 {| GRPCPostCreateServer_Impl := None |}) ctx req w0
            = Panicked w0))
  /\
  (forall (register : Server -> iface (PreDeleteServer W context) -> M W unit)
          (p : PreDeleteGRPCPlugin W Plugin) (broker : GRPCBroker) (s : Server)
          (w w' : W),
      PreDeleteGRPCPlugin_Impl p = None ->
      register s (Some (GRPCPreDeleteServer_as_PreDeleteServer context
                          {| GRPCPreDeleteServer_Impl := None |})) w
      = Returned tt w' ->
      PreDeleteGRPCPlugin_GRPCServer register broker s (p, w) = Returned None (p, w')
      /\ (forall (ctx : context) (req : ptr Stack) (w0 : W),
            PreDeleteServer_Execute
              (GRPCPreDeleteServer_as_PreDeleteServer context
                 {| GRPCPreDeleteServer_Impl := None |}) ctx req w0
            = Panicked w0))
  /\
  (forall (register : Server -> iface (PostDeleteServer W context) -> M W unit)
          (p : PostDeleteGRPCPlugin W Plugin) (broker : GRPCBroker) (s : Server)
          (w w' : W),
      PostDeleteGRPCPlugin_Impl p = None ->
      register s (Some (GRPCPostDeleteServer_as_PostDeleteServer context
                          {| GRPCPostDeleteServer_Impl := None |})) w
      = Returned tt w' ->
      PostDeleteGRPCPlugin_GRPCServer register broker s (p, w) = Returned None (p, w')
      /\ (forall (ctx : context) (req : ptr Stack) (w0 : W),
            PostDeleteServer_Execute
              (GRPCPostDeleteServer_as_PostDeleteServer context
                 {| GRPCPostDeleteServer_Impl := None |}) ctx req w0
            = Panicked w0)).
Proof.
  split; [|split; [|split]];
    intros register p broker s w w' Hnil Hregister;
    (split; [|intros ctx [rq|] w0; reflexivity]);
    destruct p as [pl i]; cbn in Hnil; subst i; exec_binding;
    cbn [PreCreateGRPCPlugin_Impl PostCreateGRPCPlugin_Impl
         PreDeleteGRPCPlugin_Impl PostDeleteGRPCPlugin_Impl];
    rewrite Hregister; reflexivity.
Qed.


End BindingMore.


Lemma GRPCServer_registers_nil_Impl_witness :
  (PreCreateGRPCPlugin_GRPCServer
     (registering (Srv := PreCreateServer (list nat) unit)) tt 2
     ({| PreCreateGRPCPlugin_Plugin := @None unit; PreCreateGRPCPlugin_Impl := None |}, [])
   = Returned None
       ({| PreCreateGRPCPlugin_Plugin := @None unit; PreCreateGRPCPlugin_Impl := None |},
        [2])
   /\
   PreCreateServer_Execute
     (GRPCPreCreateServer_as_PreCreateServer unit {| GRPCPreCreateServer_Impl := None |})
     tt (Some {| Name := "prod-stack-1" |}) [2]
   = Panicked [2])
  /\
  (PostCreateGRPCPlugin_GRPCServer
     (registering (Srv := PostCreateServer (list nat) unit)) tt 3
     ({| PostCreateGRPCPlugin_Plugin := @None unit; PostCreateGRPCPlugin_Impl := None |}, [])
   = Returned None
       ({| PostCreateGRPCPlugin_Plugin := @None unit; PostCreateGRPCPlugin_Impl := None |},
        [3])
   /\
   PostCreateServer_Execute
     (GRPCPostCreateServer_as_PostCreateServer unit {| GRPCPostCreateServer_Impl := None |})
     tt (Some {| Name := "prod-stack-1" |}) [3]
   = Panicked [3])
  /\
  (PreDeleteGRPCPlugin_GRPCServer
     (registering (Srv := PreDeleteServer (list nat) unit)) tt 4
     ({| PreDeleteGRPCPlugin_Plugin := @None unit; PreDeleteGRPCPlugin_Impl := None |}, [])
   = Returned None
       ({| PreDeleteGRPCPlugin_Plugin := @None unit; PreDeleteGRPCPlugin_Impl := None |},
        [4])
   /\
   PreDeleteServer_Execute
     (GRPCPreDeleteServer_as_PreDeleteServer unit {| GRPCPreDeleteServer_Impl := None |})
     tt (Some {| Name := "prod-stack-1" |}) [4]
   = Panicked [4])
  /\
  (PostDeleteGRPCPlugin_GRPCServer
     (registering (Srv := PostDeleteServer (list nat) unit)) tt 5
     ({| PostDeleteGRPCPlugin_Plugin := @None unit; PostDeleteGRPCPlugin_Impl := None |}, [])
   = Returned None
       ({| PostDeleteGRPCPlugin_Plugin := @None unit; PostDeleteGRPCPlugin_Impl := None |},
        [5])
   /\
   PostDeleteServer_Execute
     (GRPCPostDeleteServer_as_PostDeleteServer unit {| GRPCPostDeleteServer_Impl := None |})
     tt (Some {| Name := "prod-stack-1" |}) [5]
   = Panicked [5]).
Proof.
  destruct (@GRPCServer_registers_nil_Impl (list nat) unit unit unit nat)
    as (HPreCreate & HPostCreate & HPreDelete & HPostDelete).
  split; [|split; [|split]].
  - destruct (HPreCreate (registering (Srv := PreCreateServer (list nat) unit))
                {| PreCreateGRPCPlugin_Plugin := @None unit;
                   PreCreateGRPCPlugin_Impl := None |} tt 2 [] [2]
                eq_refl eq_refl) as [Hserved Hhandler].
    split; [exact Hserved|apply Hhandler].
  - destruct (HPostCreate (registering (Srv := PostCreateServer (list nat) unit))
                {| PostCreateGRPCPlugin_Plugin := @None unit;
                   PostCreateGRPCPlugin_Impl := None |} tt 3 [] [3]
                eq_refl eq_refl) as [Hserved Hhandler].
    split; [exact Hserved|apply Hhandler].
  - destruct (HPreDelete (registering (Srv := PreDeleteServer (list nat) unit))
                {| PreDeleteGRPCPlugin_Plugin := @None unit;
                   PreDeleteGRPCPlugin_Impl := None |} tt 4 [] [4]
                eq_refl eq_refl) as [Hserved Hhandler].
    split; [exact Hserved|apply Hhandler].
  - destruct (HPostDelete (registering (Srv := PostDeleteServer (list nat) unit))
                {| PostDeleteGRPCPlugin_Plugin := @None unit;
                   PostDeleteGRPCPlugin_Impl := None |} tt 5 [] [5]
                eq_refl eq_refl) as [Hserved Hhandler].
    split; [exact Hserved|apply Hhandler].
Defined.

